(** * Medication-name resolution and the OAuth2 callback of the Flask demo

    A shallow embedding of [demos/flask/flask_app.py]: the helpers
    [_med_name], [_get_medication_by_ref], [_get_med_name] and the route
    handler [callback].

    Python objects of the FHIR client library become records whose optional
    attributes are [option]s; Python truthiness is written out; calls into the
    library (reading a Medication, handing over the callback URL) and the
    [logging] calls are recorded in a trace, and a computation ends either by
    returning a value or by raising an exception. *)

From Stdlib Require Import String Ascii List Bool Arith Lia DecimalString.
Import ListNotations.
Local Open Scope string_scope.
Local Open Scope list_scope.

(** ** Exceptions, events and the computation monad *)

(** An instance of a subclass of Python's [Exception]: its class name and
    the text [str(e)] gives.  These are the exceptions [except Exception]
    catches; interpreter exits and signals are outside the model. *)
Record exn : Type := mkExn { exn_class : string; exn_str : string }.

Inductive outcome (A : Type) : Type :=
| Return (a : A)
| Raise (e : exn).
Arguments Return {A} a.
Arguments Raise {A} e.

Inductive level : Type := DEBUG | INFO | WARNING | ERROR.

(** What the program does to the outside world, in order. *)
Inductive event : Type :=
| Log (lvl : level) (msg : string)          (* logging.debug/info/warning/error *)
| LogException (msg : string) (e : exn)     (* logging.exception, inside a handler *)
| MedicationRead (med_id : string)          (* Medication.read(med_id, server) *)
| HandleCallback (url : string).            (* smart.handle_callback(url) *)

(** A computation: the events it emitted and how it ended. *)
Definition M (A : Type) : Type := (list event * outcome A)%type.

Definition ret {A} (a : A) : M A := ([], Return a).
Definition raise {A} (e : exn) : M A := ([], Raise e).
Definition emit (ev : event) : M unit := ([ev], Return tt).

Definition bind {A B} (m : M A) (f : A -> M B) : M B :=
  match m with
  | (t, Return a) => let (t', o) := f a in (t ++ t', o)
  | (t, Raise e) => (t, Raise e)
  end.

(** [try: m  except Exception as e: h e] *)
Definition try_except {A} (m : M A) (h : exn -> M A) : M A :=
  match m with
  | (t, Return a) => (t, Return a)
  | (t, Raise e) => let (t', o) := h e in (t ++ t', o)
  end.

Notation "x <- m ;; k" := (bind m (fun x => k))
  (at level 61, m at next level, right associativity).
Notation "m ;;; k" := (bind m (fun _ => k))
  (at level 61, right associativity).

Definition trace_of {A} (m : M A) : list event := fst m.
Definition outcome_of {A} (m : M A) : outcome A := snd m.

Definition logging_debug (msg : string) : M unit := emit (Log DEBUG msg).
Definition logging_info (msg : string) : M unit := emit (Log INFO msg).
Definition logging_warning (msg : string) : M unit := emit (Log WARNING msg).
Definition logging_error (msg : string) : M unit := emit (Log ERROR msg).
Definition logging_exception (msg : string) (e : exn) : M unit :=
  emit (LogException msg e).

(** ** Python values *)

(** [bool(x)] of an [Optional[str]]: [None] and the empty string are falsy. *)
Definition truthy_str (o : option string) : bool :=
  match o with
  | Some s => negb (s =? "")
  | None => false
  end.

(** [bool(x)] of an [Optional[list]]: [None] and the empty list are falsy. *)
Definition truthy_list {A} (o : option (list A)) : bool :=
  match o with
  | Some (_ :: _) => true
  | _ => false
  end.

(** [x] when [if x:] succeeds on an [Optional[str]]. *)
Definition as_truthy (o : option string) : option string :=
  match o with
  | Some s => if s =? "" then None else Some s
  | None => None
  end.

(** The elements of an [Optional[list]] a generator iterates over once the
    list is known to be truthy. *)
Definition items {A} (o : option (list A)) : list A :=
  match o with
  | Some l => l
  | None => []
  end.

(** [x == s] for an [Optional[str]] [x] and a string literal [s]. *)
Definition opt_eqb (o : option string) (s : string) : bool :=
  match o with
  | Some x => x =? s
  | None => false
  end.

(** [next((proj x for x in l if cond x), default)] *)
Fixpoint next {A B} (proj : A -> B) (cond : A -> bool) (l : list A)
    (default : B) : B :=
  match l with
  | [] => default
  | x :: r => if cond x then proj x else next proj cond r default
  end.

(** An f-string field holding an [Optional[str]], a [bool]. *)
Definition fmt_opt (o : option string) : string :=
  match o with
  | Some s => s
  | None => "None"
  end.

Definition fmt_bool (b : bool) : string := if b then "True" else "False".

(** [bool(x)] of an optional object without a length: only [None] is falsy. *)
Definition is_some {A} (o : option A) : bool :=
  match o with
  | Some _ => true
  | None => false
  end.

(** [c in s] for a one-character string [c]. *)
Fixpoint str_contains (c : ascii) (s : string) : bool :=
  match s with
  | EmptyString => false
  | String a r => Ascii.eqb a c || str_contains c r
  end.

(** [s.split(sep)] for a one-character separator: the pieces between the
    separators, empty pieces kept; never an empty list. *)
Fixpoint split (sep : ascii) (s : string) : list string :=
  match s with
  | EmptyString => [EmptyString]
  | String a r =>
      if Ascii.eqb a sep then EmptyString :: split sep r
      else match split sep r with
           | w :: ws => String a w :: ws
           | [] => [String a EmptyString]
           end
  end.

Definition slash : ascii := "/"%char.

(** ** Resources of the FHIR client library *)

Module Coding.
Record t : Type := mk { system : option string; display : option string }.
End Coding.

Module CodeableConcept.
Record t : Type := mk { coding : option (list Coding.t); text : option string }.
End CodeableConcept.

Module FHIRReference.
Record t : Type := mk { reference : option string }.
End FHIRReference.

Module Medication.
Record t : Type := mk { code : option CodeableConcept.t }.
End Medication.

(** A [MedicationRequest]; the class declares both medication attributes, so
    the [hasattr] tests of the resolver hold and only the values matter. *)
Module MedicationRequest.
Record t : Type := mk {
  id : option string;
  medicationCodeableConcept : option CodeableConcept.t;
  medicationReference : option FHIRReference.t }.
End MedicationRequest.

(** The server object of a client: what [Medication.read] gives for an id. *)
Module FHIRServer.
Record t : Type := mk { read : string -> outcome Medication.t }.
End FHIRServer.

(** The client handle.  [handle_callback] either raises or leaves the client
    with a readiness flag and a patient id. *)
Module FHIRClient.
Record status : Type := mkStatus { ready : bool; patient_id : option string }.
Record t : Type := mk {
  server : option FHIRServer.t;
  handle_callback : string -> outcome status }.
End FHIRClient.

(** [Medication.read(med_id, server)] *)
Definition Medication_read (med_id : string) (srv : FHIRServer.t)
    : M Medication.t :=
  ([MedicationRead med_id], FHIRServer.read srv med_id).

(** [smart.handle_callback(url)] *)
Definition smart_handle_callback (smart : FHIRClient.t) (url : string)
    : M FHIRClient.status :=
  ([HandleCallback url], FHIRClient.handle_callback smart url).

(** ** The name helpers *)

Definition RXNORM : string := "http://www.nlm.nih.gov/research/umls/rxnorm".

Definition is_rxnorm_named (k : Coding.t) : bool :=
  opt_eqb (Coding.system k) RXNORM && truthy_str (Coding.display k).

Definition is_named (k : Coding.t) : bool := truthy_str (Coding.display k).

(** The tail of [_med_name]: the concept's text, else the last sentinel. *)
Definition text_or_unnamed (mc : CodeableConcept.t) : string :=
  match as_truthy (CodeableConcept.text mc) with
  | Some t => t
  | None => "Unnamed Medication"
  end.

Definition _med_name (med_code : option CodeableConcept.t) : string :=
  match med_code with
  | None => "Medication data unavailable"
  | Some mc =>
      if truthy_list (CodeableConcept.coding mc) then
        let codings := items (CodeableConcept.coding mc) in
        let rxnorm_name := next Coding.display is_rxnorm_named codings None in
        match as_truthy rxnorm_name with
        | Some n => n
        | None =>
            let any_display_name := next Coding.display is_named codings None in
            match as_truthy any_display_name with
            | Some n => n
            | None => text_or_unnamed mc
            end
        end
      else text_or_unnamed mc
  end.

Definition UnboundLocalError : exn :=
  mkExn "UnboundLocalError"
        "cannot access local variable 'med_id' where it is not associated with a value".

Definition _get_medication_by_ref (ref : option string)
    (smart : option FHIRClient.t) : M (option CodeableConcept.t) :=
  match ref with
  | None =>
      logging_error ("Invalid medication reference format: " ++ fmt_opt ref) ;;;
      ret None
  | Some r =>
      if (r =? "") || negb (str_contains slash r) then
        logging_error ("Invalid medication reference format: " ++ r) ;;;
        ret None
      else
        match nth_error (split slash r) 1 with
        | None =>
            (* the subscript raises before [med_id] is bound, and the
               handler's own message then fails on the unbound name *)
            raise UnboundLocalError
        | Some med_id =>
            try_except
              (match smart with
               | Some sm =>
                   match FHIRClient.server sm with
                   | Some srv =>
                       logging_info ("Reading Medication/" ++ med_id) ;;;
                       med_resource <- Medication_read med_id srv ;;
                       ret (Medication.code med_resource)
                   | None =>
                       logging_error
                         "FHIR client server unavailable for medication lookup" ;;;
                       ret None
                   end
               | None =>
                   logging_error
                     "FHIR client server unavailable for medication lookup" ;;;
                   ret None
               end)
              (fun e =>
                 logging_exception ("Failed to read Medication/" ++ med_id) e ;;;
                 ret None)
        end
  end.

(** The last statement of [_get_med_name]: format the concept found, or log
    and give the not-found sentinel. *)
Definition name_or_not_found (p : MedicationRequest.t)
    (med_code : option CodeableConcept.t) : M string :=
  match med_code with
  | Some _ => ret (_med_name med_code)
  | None =>
      logging_warning
        ("Could not resolve medication name for prescription "
           ++ (if truthy_str (MedicationRequest.id p)
               then fmt_opt (MedicationRequest.id p) else "unknown")) ;;;
      ret "Error: medication details not found"
  end.

(** [prescription.medicationReference.reference], when the reference object
    is there. *)
Definition reference_of (p : MedicationRequest.t) : option string :=
  match MedicationRequest.medicationReference p with
  | Some r => FHIRReference.reference r
  | None => None
  end.

Definition _get_med_name (prescription : option MedicationRequest.t)
    (smart_client : option FHIRClient.t) : M string :=
  match prescription with
  | None => ret "Invalid prescription data"
  | Some p =>
      match MedicationRequest.medicationCodeableConcept p with
      | Some mc =>
          if negb (truthy_list (CodeableConcept.coding mc)) then
            match as_truthy (CodeableConcept.text mc) with
            | Some t => ret t
            | None => name_or_not_found p (Some mc)
            end
          else name_or_not_found p (Some mc)
      | None =>
          if truthy_str (reference_of p) && is_some smart_client then
            logging_debug ("Fetching medication reference: "
                             ++ fmt_opt (reference_of p)) ;;;
            med_code <- _get_medication_by_ref (reference_of p) smart_client ;;
            name_or_not_found p med_code
          else name_or_not_found p None
      end
  end.

(** ** The callback route *)

Inductive Response : Type :=
| Html (body : string)            (* a view returning a string *)
| Redirect (location : string).   (* redirect(location) *)

(** The request: its full URL and its query parameters in order. *)
Record Request : Type := mkRequest {
  url : string;
  args : list (string * string) }.

(** [request.args.get(key)]: the first value given for [key], if any. *)
Fixpoint args_get (key : string) (a : list (string * string)) : option string :=
  match a with
  | [] => None
  | (k, v) :: r => if k =? key then Some v else args_get key r
  end.

Definition dq : string := String (ascii_of_nat 34) EmptyString.

Definition not_initialized_page : string :=
  "<h1>Error</h1><p>FHIR Client not initialized. Cannot handle callback.</p>".

Definition code_missing_page : string :=
  "<h1>Authorization Error</h1><p>Authorization code is missing.</p>".

(** The page of the handler's [except] branch, with [str(e)] filled in. *)
Definition start_over_page (e : exn) : string :=
  "<h1>Authorization Error</h1><p>" ++ exn_str e ++ "</p><p><a href="
    ++ dq ++ "/" ++ dq ++ ">Start over</a></p>".

(** [callback()], with [smart] the value [_get_smart()] gave and [request]
    the request being served.  The [try] block either returns a response of
    its own ([Some]) or falls through to the final redirect ([None]). *)
Definition callback (smart : option FHIRClient.t) (request : Request)
    : M Response :=
  match smart with
  | None => ret (Html not_initialized_page)
  | Some sm =>
      early <- try_except
        (logging_debug ("Handling callback: " ++ url request) ;;;
         let auth_code := args_get "code" (args request) in
         let state := args_get "state" (args request) in
         if negb (truthy_str auth_code) then
           logging_error "Authorization code missing from callback request." ;;;
           ret (Some (Html code_missing_page))
         else
           st <- smart_handle_callback sm (url request) ;;
           logging_info
             ("Callback successful (Placeholder). Ready state: "
                ++ fmt_bool (FHIRClient.ready st) ++ ", Patient ID: "
                ++ fmt_opt (FHIRClient.patient_id st)) ;;;
           ret None)
        (fun e =>
           logging_exception "Callback handler failed" e ;;;
           ret (Some (Html (start_over_page e)))) ;;
      match early with
      | Some response => ret response
      | None => ret (Redirect "/")
      end
  end.

(** * Vocabulary of the statements *)

(** ** Labels of codings *)

(** The coding carries the non-empty display label [d]. *)
Definition labelled (k : Coding.t) (d : string) : Prop :=
  Coding.display k = Some d /\ d <> "".

(** The coding's display label is absent or empty. *)
Definition unlabelled (k : Coding.t) : Prop :=
  Coding.display k = None \/ Coding.display k = Some "".

(** The coding is in the RxNorm system and carries the label [d]. *)
Definition rxnorm_labelled (k : Coding.t) (d : string) : Prop :=
  Coding.system k = Some RXNORM /\ labelled k d.

(** ** Resolved concepts *)

Definition NOT_FOUND : string := "Error: medication details not found".

(** The concept came with the prescription. *)
Definition inline (p : MedicationRequest.t) (mc : CodeableConcept.t) : Prop :=
  MedicationRequest.medicationCodeableConcept p = Some mc.

(** The concept was read from the server through the reference: there is no
    inline concept, the reference holds a slash, a client with a server is at
    hand, and reading the piece at index 1 gave a medication with a code. *)
Definition fetched (p : MedicationRequest.t) (smart : option FHIRClient.t)
    (mc : CodeableConcept.t) : Prop :=
  MedicationRequest.medicationCodeableConcept p = None
  /\ exists r sm srv med_id m,
       reference_of p = Some r
       /\ str_contains slash r = true
       /\ smart = Some sm
       /\ FHIRClient.server sm = Some srv
       /\ nth_error (split slash r) 1 = Some med_id
       /\ FHIRServer.read srv med_id = Return m
       /\ Medication.code m = Some mc.

Definition resolves (p : MedicationRequest.t) (smart : option FHIRClient.t)
    (mc : CodeableConcept.t) : Prop :=
  inline p mc \/ fetched p smart mc.

(** The string is one the concept itself carries: its free text or the
    display label of one of its codings. *)
Definition carries (mc : CodeableConcept.t) (s : string) : Prop :=
  CodeableConcept.text mc = Some s
  \/ exists k, In k (items (CodeableConcept.coding mc)) /\ Coding.display k = Some s.

(** Ways in which no concept is resolved for a prescription without an inline
    concept: no reference, no client, a reference without a slash, a read
    that raises. *)
Inductive unresolved (p : MedicationRequest.t) (smart : option FHIRClient.t)
    : Prop :=
| no_reference :
    reference_of p = None \/ reference_of p = Some "" -> unresolved p smart
| no_client :
    smart = None -> unresolved p smart
| malformed_reference (r : string) :
    reference_of p = Some r -> str_contains slash r = false ->
    unresolved p smart
| fetch_raises (r : string) (sm : FHIRClient.t) (srv : FHIRServer.t)
    (med_id : string) (e : exn) :
    reference_of p = Some r -> smart = Some sm ->
    FHIRClient.server sm = Some srv ->
    nth_error (split slash r) 1 = Some med_id ->
    FHIRServer.read srv med_id = Raise e ->
    unresolved p smart.

(** ** Traces *)

(** The ids of the medications read, in order. *)
Definition reads (t : list event) : list string :=
  flat_map (fun ev => match ev with MedicationRead i => [i] | _ => [] end) t.

(** The URLs handed to the client's callback processor, in order. *)
Definition handoffs (t : list event) : list string :=
  flat_map (fun ev => match ev with HandleCallback u => [u] | _ => [] end) t.

(** ** Sample data *)

Definition local_system : string := "http://example.org/local-codes".

Definition asa_local : Coding.t := Coding.mk (Some local_system) (Some "ASA").

Definition aspirin_rxnorm : Coding.t :=
  Coding.mk (Some RXNORM) (Some "Aspirin 81 MG Oral Tablet").

Definition code_only : Coding.t := Coding.mk (Some local_system) None.

Definition aspirin_concept : CodeableConcept.t :=
  CodeableConcept.mk (Some [asa_local; aspirin_rxnorm]) (Some "aspirin").

Definition local_concept : CodeableConcept.t :=
  CodeableConcept.mk (Some [code_only; asa_local]) (Some "aspirin").

Definition unlabelled_concept : CodeableConcept.t :=
  CodeableConcept.mk (Some [code_only]) (Some "Aspirin 81mg").

Definition text_only_concept : CodeableConcept.t :=
  CodeableConcept.mk (Some []) (Some "Aspirin 81mg").

Definition empty_concept : CodeableConcept.t := CodeableConcept.mk None None.

Definition unavailable_text_concept : CodeableConcept.t :=
  CodeableConcept.mk None (Some "Medication data unavailable").

Definition network_error : exn := mkExn "ConnectionError" "network unreachable".

Definition failing_server : FHIRServer.t :=
  FHIRServer.mk (fun _ => Raise network_error).

Definition offline_client : FHIRClient.t :=
  FHIRClient.mk (Some failing_server) (fun _ => Raise network_error).

Definition with_inline (mc : CodeableConcept.t) : MedicationRequest.t :=
  MedicationRequest.mk (Some "rx-1") (Some mc) None.

Definition by_reference (r : string) : MedicationRequest.t :=
  MedicationRequest.mk (Some "rx-2") None (Some (FHIRReference.mk (Some r))).

Definition bare_prescription : MedicationRequest.t :=
  MedicationRequest.mk (Some "rx-3") None None.

Definition absolute_reference : string := "https://srv/fhir/Medication/123".

(** * The session, the client factory and the other routes

    The rest of [flask_app.py]: [_save_state], [_get_smart], [_logout],
    [_reset], [_get_prescriptions] and the routes [index], [logout] and
    [reset], with the callback route on top of [_get_smart].  The session is
    a dictionary passed along; the client library is a parameter: what its
    constructors, methods and properties return or raise, and which states it
    hands to [save_func] on the way. *)

(** ** Python values and dictionaries *)

(** The values the session and the settings hold. *)
#[warning="-register-all"]
Inductive pyval : Type :=
| PyNone
| PyStr (s : string)
| PyBytes (b : string)
| PyDict (d : list (string * pyval)).

(** A [dict] with string keys, as the list of its items; a key occurs once. *)
Definition dict : Type := list (string * pyval).

(** [bool(v)] *)
Definition truthy (v : pyval) : bool :=
  match v with
  | PyNone => false
  | PyStr s => negb (s =? "")
  | PyBytes b => negb (b =? "")
  | PyDict d => match d with [] => false | _ :: _ => true end
  end.

(** [d.get(k)]: the value under [k], [None] when the key is not there. *)
Fixpoint dict_get (k : string) (d : dict) : pyval :=
  match d with
  | [] => PyNone
  | (k', v) :: r => if k' =? k then v else dict_get k r
  end.

(** [k in d] *)
Fixpoint dict_contains (k : string) (d : dict) : bool :=
  match d with
  | [] => false
  | (k', _) :: r => (k' =? k) || dict_contains k r
  end.

(** [d[k] = v]: the value is replaced where the key stands, or the item is
    added. *)
Fixpoint dict_set (k : string) (v : pyval) (d : dict) : dict :=
  match d with
  | [] => [(k, v)]
  | (k', v') :: r =>
      if k' =? k then (k, v) :: r else (k', v') :: dict_set k v r
  end.

(** [d.pop(k, None)]: what is left of [d]; nothing happens when the key is
    not there. *)
Fixpoint dict_pop (k : string) (d : dict) : dict :=
  match d with
  | [] => []
  | (k', v') :: r =>
      if k' =? k then dict_pop k r else (k', v') :: dict_pop k r
  end.

(** [str(len(l))] *)
Definition fmt_len {A} (l : list A) : string :=
  NilEmpty.string_of_uint (Nat.to_uint (length l)).

(** ** The client handle as the routes use it *)

Module HumanName.
Record t : Type := mk { family : option string; given : option (list string) }.
End HumanName.

Module Patient.
Record t : Type := mk { name : option (list HumanName.t) }.
End Patient.

(** What a call into the client library does, as far as the app sees it: the
    states the library hands to [save_func] while it runs, in order, and how
    the call ends. *)
Definition ext (A : Type) : Type := (list pyval * outcome A)%type.

(** The client handle with the attributes and methods the routes reach for,
    beside the server and the callback processor of [FHIRClient.t].
    [ready] and [patient_id] are plain attributes, read as they stand during
    the request.  [patient] is a property that may go to the server: its
    argument is the number of times it was read before in the request, so
    that two reads need not agree.  [perform_search] stands for
    [MedicationRequest.where({'patient': id}).perform_resources(smart.server)]. *)
Module Smart.
Record t : Type := mk {
  client : FHIRClient.t;
  ready : bool;
  patient_id : option string;
  patient : nat -> outcome (option Patient.t);
  prepare : outcome bool;
  human_name : HumanName.t -> outcome string;
  authorize_url : outcome (option string);
  perform_search : string -> outcome (list MedicationRequest.t);
  reset_patient : ext unit }.
End Smart.

(** What the process and the library give the app: the secret key drawn at
    start-up and the two ways [client.FHIRClient] is constructed. *)
Record World : Type := mkWorld {
  secret_key : string;
  client_from_state : pyval -> ext Smart.t;
  client_from_settings : dict -> ext Smart.t }.

(** ** Effects of the routes *)

(** The events of the helpers above, and the calls into the library the
    other functions make. *)
Inductive effect : Type :=
| Base (e : event)
| NewClientFromState (state : pyval)     (* client.FHIRClient(state=..., save_func=_save_state) *)
| NewClientFromSettings (settings : dict) (* client.FHIRClient(settings=..., save_func=_save_state) *)
| ResetPatient                            (* smart.reset_patient() *)
| Prepare                                 (* smart.prepare() *)
| PerformSearch (patient_id : string).    (* search.perform_resources(smart.server) *)

(** A computation that does not touch the session. *)
Definition T (A : Type) : Type := (list effect * outcome A)%type.

Definition tret {A} (a : A) : T A := ([], Return a).
Definition traise {A} (e : exn) : T A := ([], Raise e).

Definition tbind {A B} (m : T A) (f : A -> T B) : T B :=
  match m with
  | (t, Return a) => let (t', o) := f a in (t ++ t', o)
  | (t, Raise e) => (t, Raise e)
  end.

Definition ttry {A} (m : T A) (h : exn -> T A) : T A :=
  match m with
  | (t, Return a) => (t, Return a)
  | (t, Raise e) => let (t', o) := h e in (t ++ t', o)
  end.

(** A computation of the helpers above, run as it is. *)
Definition tlift {A} (m : M A) : T A := (map Base (fst m), snd m).

(** A method or property of the handle, with the effect it shows as. *)
Definition tcall {A} (c : list effect) (o : outcome A) : T A := (c, o).

Definition tlog (lvl : level) (msg : string) : T unit :=
  ([Base (Log lvl msg)], Return tt).

Definition tlog_exception (msg : string) (e : exn) : T unit :=
  ([Base (LogException msg e)], Return tt).

Notation "x <~ m ;; k" := (tbind m (fun x => k))
  (at level 61, m at next level, right associativity).
Notation "m ~;; k" := (tbind m (fun _ => k))
  (at level 61, right associativity).

(** [[f(x) for x in l]] *)
Fixpoint tmap {A B} (f : A -> T B) (l : list A) : T (list B) :=
  match l with
  | [] => tret []
  | x :: r => y <~ f x ;; ys <~ tmap f r ;; tret (y :: ys)
  end.

(** A computation on the session: the session it leaves, also when it
    raises, with its effects and its outcome. *)
Definition R (A : Type) : Type := dict -> (dict * T A)%type.

Definition rret {A} (a : A) : R A := fun s => (s, tret a).

Definition rbind {A B} (m : R A) (f : A -> R B) : R B :=
  fun s =>
    match m s with
    | (s1, (t, Return a)) =>
        match f a s1 with
        | (s2, (t', o)) => (s2, (t ++ t', o))
        end
    | (s1, (t, Raise e)) => (s1, (t, Raise e))
    end.

Definition rlift {A} (m : T A) : R A := fun s => (s, m).

Notation "x <@ m ;; k" := (rbind m (fun x => k))
  (at level 61, m at next level, right associativity).
Notation "m @;; k" := (rbind m (fun _ => k))
  (at level 61, right associativity).

(** The session a computation leaves, and what it shows to the outside. *)
Definition session_after {A} (m : R A) (s : dict) : dict := fst (m s).
Definition observe {A} (m : R A) (s : dict) : T A := snd (m s).

Definition effects_of {A} (m : T A) : list effect := fst m.
Definition result_of {A} (m : T A) : outcome A := snd m.

(** ** The session helpers *)

Definition smart_defaults : dict :=
  [("app_id", PyStr "my-flask-app");
   ("api_base", PyStr "https://launch.smarthealthit.org/v/r4/fhir");
   ("redirect_uri",
    PyStr "https://eircare-preview-xyx5dpyhxq-uc.a.run.app/fhir-app/");
   ("scope",
    PyStr "openid profile offline_access email system/AllergyIntolerance.read system/Patient.read system/Provenance.read system/CarePlan.read system/Organization.read system/Condition.read system/Encounter.read system/DiagnosticReport.read system/CareTeam.read system/Observation.read system/Practitioner.read system/Goal.read system/Immunization.read system/Medication.read")].

Definition _save_state (state : pyval) : R unit :=
  fun session => (dict_set "state" state session, tret tt).

(** The session after the library called [save_func], which is
    [_save_state], on the states [saved], one after the other. *)
Definition saved_into (saved : list pyval) (session : dict) : dict :=
  fold_left (fun s state => session_after (_save_state state) s) saved session.

(** A call into the library that was given [_save_state] as its
    [save_func]. *)
Definition library_call {A} (c : effect) (x : ext A) : R A :=
  fun session => (saved_into (fst x) session, ([c], snd x)).

(** The settings the client is made from when the session has no state: a
    copy of the defaults with the secret key of the process added. *)
Definition default_settings (w : World) : dict :=
  dict_set "secret_key" (PyBytes (secret_key w)) smart_defaults.

Definition _get_smart (w : World) : R (option Smart.t) :=
  fun session =>
    (let state := dict_get "state" session in
     if truthy state then
       sm <@ library_call (NewClientFromState state) (client_from_state w state) ;;
       rret (Some sm)
     else if truthy (dict_get "api_base" smart_defaults) then
       let settings := default_settings w in
       sm <@ library_call (NewClientFromSettings settings)
               (client_from_settings w settings) ;;
       rret (Some sm)
     else
       rlift (tlog ERROR
                "Cannot initialize FHIRClient: api_base not set in smart_defaults.") @;;
       rret None) session.

Definition _logout (w : World) : R unit :=
  fun session =>
    (if dict_contains "state" session then
       smart <@ _get_smart w ;;
       match smart with
       | Some sm => library_call ResetPatient (Smart.reset_patient sm)
       | None => rret tt
       end @;;
       (fun s => (dict_pop "state" s, tret tt))
     else rret tt) session.

Definition _reset : R unit :=
  fun session => (dict_pop "state" session, tret tt).

(** The route [/logout]. *)
Definition logout (w : World) : R Response :=
  _logout w @;; rret (Redirect "/").

(** The route [/reset]. *)
Definition reset : R Response :=
  _reset @;; rret (Redirect "/").

(** ** Prescriptions *)

Definition _get_prescriptions (smart : option Smart.t)
    : T (list MedicationRequest.t) :=
  match smart with
  | None =>
      tlog WARNING
        "Cannot get prescriptions: FHIR client not ready or no patient selected." ~;;
      tret []
  | Some sm =>
      if negb (truthy_str (Smart.patient_id sm)) then
        tlog WARNING
          "Cannot get prescriptions: FHIR client not ready or no patient selected." ~;;
        tret []
      else
        ttry
          (tlog INFO ("Searching for prescriptions for patient "
                        ++ fmt_opt (Smart.patient_id sm)) ~;;
           resources <~ tcall [PerformSearch (fmt_opt (Smart.patient_id sm))]
                          (Smart.perform_search sm (fmt_opt (Smart.patient_id sm))) ;;
           tlog INFO ("Found " ++ fmt_len resources ++ " prescription resources.") ~;;
           tret resources)
          (fun e =>
             tlog_exception "Failed to get prescriptions" e ~;;
             tret [])
  end.

(** ** The home page *)

Definition AttributeError_name : exn :=
  mkExn "AttributeError" "'NoneType' object has no attribute 'name'".

Definition TypeError_subscript : exn :=
  mkExn "TypeError" "'NoneType' object is not subscriptable".

Definition IndexError_list : exn :=
  mkExn "IndexError" "list index out of range".

(** [smart.patient.name], the patient property being read for the [n]-th
    time. *)
Definition patient_name_attr (sm : Smart.t) (n : nat)
    : T (option (list HumanName.t)) :=
  p <~ tcall [] (Smart.patient sm n) ;;
  match p with
  | Some pt => tret (Patient.name pt)
  | None => traise AttributeError_name
  end.

(** Lines 148-159 of [index]: the patient's name for the page.  The patient
    property was read once before, in the test of the branch. *)
Definition patient_name (sm : Smart.t) : T string :=
  name1 <~ patient_name_attr sm 1 ;;
  match name1 with
  | None =>
      ttry (tcall [Prepare] (Smart.prepare sm) ~;; tret tt)
           (fun e =>
              tlog_exception
                "Failed to fetch patient details after initial auth" e)
  | Some _ => tret tt
  end ~;;
  p2 <~ tcall [] (Smart.patient sm 2) ;;
  named <~ match p2 with
           | Some _ => name3 <~ patient_name_attr sm 3 ;; tret (truthy_list name3)
           | None => tret false
           end ;;
  if named then
    name4 <~ patient_name_attr sm 4 ;;
    match name4 with
    | None => traise TypeError_subscript
    | Some [] => traise IndexError_list
    | Some (n0 :: _) => tcall [] (Smart.human_name sm n0)
    end
  else
    tlog WARNING ("Patient resource available (ID: "
                    ++ fmt_opt (Smart.patient_id sm)
                    ++ ") but lacks name details.") ~;;
    tret "Unknown Patient".

Definition no_prescriptions_html : string :=
  "<p>(No prescriptions found or error fetching them for this patient)</p>".

Definition no_names_html : string :=
  "<p>Found prescription resources, but could not extract medication names.</p>".

Definition prescriptions_html (med_names : list string) : string :=
  "<p>Prescriptions: <ul><li>" ++ String.concat "</li><li>" med_names
    ++ "</li></ul></p>".

(** Lines 163-171 of [index]: what the page says about the prescriptions. *)
Definition prescriptions_section (sm : Smart.t) : T string :=
  pres <~ _get_prescriptions (Some sm) ;;
  match pres with
  | _ :: _ =>
      med_names <~ tmap (fun p => tlift (_get_med_name (Some p)
                                           (Some (Smart.client sm)))) pres ;;
      match med_names with
      | _ :: _ => tret (prescriptions_html med_names)
      | [] => tret no_names_html
      end
  | [] => tret no_prescriptions_html
  end.

Definition logout_link_html : string :=
  "<p><a href=" ++ dq ++ "/logout" ++ dq ++ ">Change patient / Logout</a></p>".

Definition reset_link_small_html : string :=
  "<p><a href=" ++ dq ++ "/reset" ++ dq ++ " style=" ++ dq ++ "font-size:small;"
    ++ dq ++ ">Reset Session</a></p>".

Definition reset_link_html : string :=
  "<p><a href=" ++ dq ++ "/reset" ++ dq ++ ">Reset Session</a></p>".

Definition authorize_html (auth_url : string) : string :=
  "<p>App configured for AthenaHealth Preview. Please <a href=" ++ dq
    ++ auth_url ++ dq ++ ">authorize</a>.</p>".

Definition no_authorize_url_html : string :=
  "<p>Error: Could not get authorization URL. Check FHIRClient setup and logs.</p>".

Definition application_error_html (e : exn) : string :=
  "<h1>Application Error</h1><p>An error occurred: " ++ exn_str e
    ++ ". Check server logs.</p>" ++ reset_link_html.

(** Lines 146-181 of [index], for a client that is there: the body of the
    page after the heading. *)
Definition index_for (sm : Smart.t) : T string :=
  p0 <~ (if Smart.ready sm then tcall [] (Smart.patient sm 0) else tret None) ;;
  match p0 with
  | Some _ =>
      name <~ patient_name sm ;;
      section <~ prescriptions_section sm ;;
      tret ("<p>Authorized for <em>" ++ name ++ "</em> (ID: "
              ++ fmt_opt (Smart.patient_id sm) ++ ").</p>"
              ++ section ++ logout_link_html)%string
  | None =>
      auth_url <~ tcall [] (Smart.authorize_url sm) ;;
      tret ((match as_truthy auth_url with
             | Some u => authorize_html u
             | None => no_authorize_url_html
             end) ++ reset_link_small_html)%string
  end.

(** The route [/] on the session the request came with. *)
Definition index (w : World) (session : dict) : T string :=
  ttry
    (smart <~ observe (_get_smart w) session ;;
     match smart with
     | None =>
         tret ("<h1>Hello</h1>"
                 ++ "<p>Error: FHIRClient could not be initialized. Check server logs.</p>")%string
     | Some sm =>
         rest <~ index_for sm ;;
         tret ("<h1>Hello</h1>" ++ rest)%string
     end)
    (fun e =>
       tlog_exception "Error rendering index page" e ~;;
       tret (application_error_html e)).

(** The route [/fhir-app/] on the session the request came with: the client
    is made outside the handler's [try]. *)
Definition callback_route (w : World) (session : dict) (request : Request)
    : T Response :=
  smart <~ observe (_get_smart w) session ;;
  tlift (callback (option_map Smart.client smart) request).

(** ** What the effects show *)

(** The warning of [_get_prescriptions] when there is nothing to search
    with. *)
Definition no_patient_warning : effect :=
  Base (Log WARNING
          "Cannot get prescriptions: FHIR client not ready or no patient selected.").

(** How the end of a constructor becomes the end of [_get_smart]. *)
Definition made {A} (o : outcome A) : outcome (option A) :=
  match o with
  | Return a => Return (Some a)
  | Raise e => Raise e
  end.

(** The patient ids searched for, the medication ids read. *)
Definition searches (t : list effect) : list string :=
  flat_map (fun ef => match ef with PerformSearch i => [i] | _ => [] end) t.

Definition base_events (t : list effect) : list event :=
  flat_map (fun ef => match ef with Base e => [e] | _ => [] end) t.

(** The calls into the library among the effects. *)
Definition library_calls (t : list effect) : list effect :=
  filter (fun ef => match ef with Base _ => false | _ => true end) t.

(** ** Sample sessions, clients and worlds *)

Definition saved_state : pyval :=
  PyDict [("app_id", PyStr "my-flask-app"); ("patient_id", PyStr "p1")].

Definition logged_in_session : dict :=
  [("csrf_token", PyStr "t0k"); ("state", saved_state)].

Definition fresh_session : dict := [("csrf_token", PyStr "t0k")].

Definition smith : HumanName.t :=
  HumanName.mk (Some "Smith") (Some ["John"]).

Definition patient_smith : Patient.t := Patient.mk (Some [smith]).

Definition patient_nameless : Patient.t := Patient.mk None.

Definition working_server : FHIRServer.t :=
  FHIRServer.mk (fun _ => Return (Medication.mk (Some aspirin_concept))).

Definition working_client : FHIRClient.t :=
  FHIRClient.mk (Some working_server)
    (fun _ => Return (FHIRClient.mkStatus true (Some "p1"))).

(** A client that is authorized for patient [p1], with two prescriptions. *)
Definition ready_client : Smart.t :=
  Smart.mk working_client true (Some "p1")
    (fun _ => Return (Some patient_smith))
    (Return true)
    (fun _ => Return "John Smith")
    (Return (Some "https://auth.example.org/authorize"))
    (fun _ => Return [with_inline text_only_concept; by_reference "Medication/123"])
    ([saved_state], Return tt).

(** The same client with a patient that has no names and a server that
    fails on every search and on [prepare()]. *)
Definition nameless_client : Smart.t :=
  Smart.mk offline_client true (Some "p1")
    (fun _ => Return (Some patient_nameless))
    (Raise network_error)
    (fun _ => Return "John Smith")
    (Return None)
    (fun _ => Raise network_error)
    ([saved_state], Raise network_error).

(** A client before authorization. *)
Definition unready_client : Smart.t :=
  Smart.mk working_client false None
    (fun _ => Return None)
    (Return false)
    (fun _ => Return "")
    (Return (Some "https://auth.example.org/authorize"))
    (fun _ => Return [])
    ([], Return tt).

Definition demo_world : World :=
  mkWorld "0123456789abcdef01234567"
    (fun _ => ([], Return ready_client))
    (fun _ => ([], Return unready_client)).

(** A world whose saved states give a client that cannot reset its patient. *)
Definition stuck_world : World :=
  mkWorld "0123456789abcdef01234567"
    (fun _ => ([], Return nameless_client))
    (fun _ => ([], Return unready_client)).

(** A world in which no client can be made. *)
Definition broken_world : World :=
  mkWorld "0123456789abcdef01234567"
    (fun _ => ([], Raise network_error))
    (fun _ => ([], Raise network_error)).

Definition callback_request : Request :=
  mkRequest "https://app/fhir-app/?code=abc&state=xyz"
    [("code", "abc"); ("state", "xyz")].

(** A callback whose [code] parameter is there and empty. *)
Definition empty_code_request : Request :=
  mkRequest "https://app/fhir-app/?code=&state=xyz"
    [("code", ""); ("state", "xyz")].

(** * Properties *)

(** ** Truthiness *)

Lemma as_truthy_Some (o : option string) (s : string) :
  as_truthy o = Some s <-> o = Some s /\ s <> "".
Proof.
  unfold as_truthy. destruct o as [x|].
  - destruct (String.eqb_spec x "") as [E|E]; split.
    + intros H. discriminate H.
    + intros [H N]. inversion H. congruence.
    + intros H. inversion H. subst. auto.
    + intros [H _]. exact H.
  - split; [intros H | intros [H _]]; discriminate H.
Qed.

Lemma as_truthy_None (o : option string) :
  as_truthy o = None <-> o = None \/ o = Some "".
Proof.
  unfold as_truthy. destruct o as [x|].
  - destruct (String.eqb_spec x "") as [E|E]; split; subst; auto.
    intros [H|H]; [discriminate H | inversion H; congruence].
  - split; auto.
Qed.

Lemma truthy_str_as_truthy (o : option string) :
  truthy_str o = is_some (as_truthy o).
Proof.
  destruct o as [x|]; simpl; [destruct (x =? ""); reflexivity | reflexivity].
Qed.

Lemma truthy_str_false (o : option string) :
  truthy_str o = false <-> o = None \/ o = Some "".
Proof.
  rewrite truthy_str_as_truthy, <- as_truthy_None.
  destruct (as_truthy o); simpl; split; congruence.
Qed.

Lemma truthy_str_true (o : option string) :
  truthy_str o = true <-> exists s, o = Some s /\ s <> "".
Proof.
  rewrite truthy_str_as_truthy. split.
  - destruct (as_truthy o) as [s|] eqn:E; [|discriminate].
    intros _. exists s. now apply as_truthy_Some.
  - intros [s H]. apply as_truthy_Some in H. now rewrite H.
Qed.

Lemma truthy_list_false {A} (o : option (list A)) :
  truthy_list o = false <-> o = None \/ o = Some [].
Proof.
  destruct o as [[|x l]|]; simpl; split; auto; try discriminate.
  intros [H|H]; discriminate.
Qed.

(** ** The generator idiom [next(..., default)] *)

Section Next.
Context {A B : Type} (proj : A -> B) (cond : A -> bool) (default : B).

Lemma next_first (pre : list A) (k : A) (post : list A) :
  (forall x, In x pre -> cond x = false) ->
  cond k = true ->
  next proj cond (pre ++ k :: post) default = proj k.
Proof.
  induction pre as [|x pre IH]; simpl; intros Hpre Hk.
  - now rewrite Hk.
  - rewrite (Hpre x) by auto. apply IH; auto.
Qed.

Lemma next_none (l : list A) :
  (forall x, In x l -> cond x = false) ->
  next proj cond l default = default.
Proof.
  induction l as [|x l IH]; simpl; intros H; [reflexivity|].
  rewrite (H x) by auto. apply IH; auto.
Qed.

(** A list with a matching element splits at its first one. *)
Lemma first_match (l : list A) :
  (exists k, In k l /\ cond k = true) ->
  exists pre k post,
    l = pre ++ k :: post
    /\ (forall x, In x pre -> cond x = false)
    /\ cond k = true.
Proof.
  induction l as [|x l IH]; intros [k [Hin Hk]]; [destruct Hin|].
  destruct (cond x) eqn:Ex.
  - exists [], x, l. repeat split; auto. intros y [].
  - destruct IH as (pre & k' & post & -> & Hpre & Hk').
    + destruct Hin as [->|Hin]; [congruence | eauto].
    + exists (x :: pre), k', post. repeat split; auto.
      intros y [<-|Hy]; auto.
Qed.
End Next.

(** ** Labels of codings *)

Lemma is_named_true (k : Coding.t) :
  is_named k = true <-> exists d, labelled k d.
Proof. apply truthy_str_true. Qed.

Lemma is_named_false (k : Coding.t) :
  is_named k = false <-> unlabelled k.
Proof. apply truthy_str_false. Qed.

Lemma is_rxnorm_named_true (k : Coding.t) :
  is_rxnorm_named k = true <-> exists d, rxnorm_labelled k d.
Proof.
  unfold is_rxnorm_named, rxnorm_labelled.
  rewrite andb_true_iff, truthy_str_true. unfold opt_eqb.
  destruct (Coding.system k) as [s|].
  - rewrite String.eqb_eq. split.
    + intros [-> [d H]]. exists d. split; [reflexivity | exact H].
    + intros [d [H L]]. inversion H. split; [reflexivity | now exists d].
  - split; [intros [H _]; discriminate | intros [d [H _]]; discriminate].
Qed.

Lemma is_rxnorm_named_false (k : Coding.t) :
  is_rxnorm_named k = false <-> forall d, ~ rxnorm_labelled k d.
Proof.
  split.
  - intros H d L. assert (is_rxnorm_named k = true) by (apply is_rxnorm_named_true; eauto).
    congruence.
  - intros H. destruct (is_rxnorm_named k) eqn:E; [|reflexivity].
    apply is_rxnorm_named_true in E. destruct E as [d L]. now destruct (H d).
Qed.

Lemma labelled_as_truthy (k : Coding.t) (d : string) :
  labelled k d -> as_truthy (Coding.display k) = Some d.
Proof. intros H. now apply as_truthy_Some. Qed.

(** ** Label selection: [_med_name] *)

(** With a non-empty coding list the body of [_med_name] is the chain of the
    two generator searches, then the text. *)
Lemma med_name_with_codings (mc : CodeableConcept.t) (k : Coding.t)
    (l : list Coding.t) :
  CodeableConcept.coding mc = Some (k :: l) ->
  _med_name (Some mc) =
    match as_truthy (next Coding.display is_rxnorm_named (k :: l) None) with
    | Some n => n
    | None =>
        match as_truthy (next Coding.display is_named (k :: l) None) with
        | Some n => n
        | None => text_or_unnamed mc
        end
    end.
Proof. intros E. unfold _med_name. rewrite E. reflexivity. Qed.

Lemma med_name_without_codings (mc : CodeableConcept.t) :
  truthy_list (CodeableConcept.coding mc) = false ->
  _med_name (Some mc) = text_or_unnamed mc.
Proof. intros E. unfold _med_name. now rewrite E. Qed.

Lemma app_cons_not_nil {A} (pre : list A) (k : A) (post : list A) :
  exists x r, pre ++ k :: post = x :: r.
Proof. destruct pre as [|x pre]; simpl; eauto. Qed.

(** The first RxNorm coding with a label wins, wherever it stands. *)
Lemma med_name_rxnorm_at (mc : CodeableConcept.t) (pre : list Coding.t)
    (k : Coding.t) (post : list Coding.t) (d : string) :
  CodeableConcept.coding mc = Some (pre ++ k :: post) ->
  (forall x, In x pre -> is_rxnorm_named x = false) ->
  rxnorm_labelled k d ->
  _med_name (Some mc) = d.
Proof.
  intros E Hpre Hk.
  destruct (app_cons_not_nil pre k post) as (x & r & Ex).
  rewrite Ex in E. rewrite (med_name_with_codings _ _ _ E), <- Ex.
  rewrite next_first; auto.
  - destruct Hk as [_ L]. now rewrite (labelled_as_truthy _ _ L).
  - apply is_rxnorm_named_true. eauto.
Qed.

(** Without a labelled RxNorm coding, the first labelled coding wins. *)
Lemma med_name_label_at (mc : CodeableConcept.t) (pre : list Coding.t)
    (k : Coding.t) (post : list Coding.t) (d : string) :
  CodeableConcept.coding mc = Some (pre ++ k :: post) ->
  (forall x, In x (pre ++ k :: post) -> is_rxnorm_named x = false) ->
  (forall x, In x pre -> is_named x = false) ->
  labelled k d ->
  _med_name (Some mc) = d.
Proof.
  intros E Hrx Hpre Hk.
  destruct (app_cons_not_nil pre k post) as (x & r & Ex).
  rewrite Ex in E. rewrite (med_name_with_codings _ _ _ E), <- Ex.
  rewrite next_none by exact Hrx. cbn [as_truthy].
  rewrite next_first; auto.
  - now rewrite (labelled_as_truthy _ _ Hk).
  - apply is_named_true. eauto.
Qed.

(** With codings but no label at all, the tail of the chain is reached. *)
Lemma med_name_no_label (mc : CodeableConcept.t) (l : list Coding.t) :
  CodeableConcept.coding mc = Some l ->
  (forall x, In x l -> is_named x = false) ->
  _med_name (Some mc) = text_or_unnamed mc.
Proof.
  intros E Hl. destruct l as [|k l].
  - apply med_name_without_codings. now rewrite E.
  - rewrite (med_name_with_codings _ _ _ E).
    rewrite next_none.
    + cbn [as_truthy]. now rewrite next_none.
    + intros x Hx. unfold is_rxnorm_named. rewrite andb_false_iff. right.
      apply (Hl x Hx).
Qed.

Lemma text_or_unnamed_text (mc : CodeableConcept.t) (t : string) :
  CodeableConcept.text mc = Some t -> t <> "" -> text_or_unnamed mc = t.
Proof.
  intros E N. unfold text_or_unnamed.
  now rewrite (proj2 (as_truthy_Some _ _) (conj E N)).
Qed.

Lemma text_or_unnamed_sentinel (mc : CodeableConcept.t) :
  CodeableConcept.text mc = None \/ CodeableConcept.text mc = Some "" ->
  text_or_unnamed mc = "Unnamed Medication".
Proof.
  intros H. unfold text_or_unnamed.
  now rewrite (proj2 (as_truthy_None _) H).
Qed.

(** C2. A concept that holds a coding of the RxNorm system with a non-empty
    display label is named by the label of the first such coding of its
    list, whatever stands before or after it and whatever the free text
    is. *)
Theorem med_name_prefers_rxnorm (mc : CodeableConcept.t) :
  (exists k d, In k (items (CodeableConcept.coding mc)) /\ rxnorm_labelled k d) ->
  exists pre k post d,
    CodeableConcept.coding mc = Some (pre ++ k :: post)
    /\ (forall x d', In x pre -> ~ rxnorm_labelled x d')
    /\ rxnorm_labelled k d
    /\ _med_name (Some mc) = d.
Proof.
  intros (k & d & Hin & Hk).
  destruct (CodeableConcept.coding mc) as [l|] eqn:E; [|destruct Hin].
  simpl in Hin.
  destruct (first_match is_rxnorm_named l) as (pre & k0 & post & -> & Hpre & Hk0).
  { exists k. split; [exact Hin|]. apply is_rxnorm_named_true. eauto. }
  apply is_rxnorm_named_true in Hk0. destruct Hk0 as [d0 Hk0].
  exists pre, k0, post, d0. repeat split; try apply Hk0.
  - intros x d' Hx. now apply is_rxnorm_named_false, Hpre.
  - now apply (med_name_rxnorm_at mc pre k0 post d0).
Qed.

(** C4. A concept without a labelled RxNorm coding, but with some coding
    that has a non-empty display label, is named by the label of the first
    labelled coding in list order. *)
Theorem med_name_first_label (mc : CodeableConcept.t) :
  (forall x d, In x (items (CodeableConcept.coding mc)) -> ~ rxnorm_labelled x d) ->
  (exists k d, In k (items (CodeableConcept.coding mc)) /\ labelled k d) ->
  exists pre k post d,
    CodeableConcept.coding mc = Some (pre ++ k :: post)
    /\ (forall x, In x pre -> unlabelled x)
    /\ labelled k d
    /\ _med_name (Some mc) = d.
Proof.
  intros Hrx (k & d & Hin & Hk).
  destruct (CodeableConcept.coding mc) as [l|] eqn:E; [|destruct Hin].
  simpl in Hin, Hrx.
  destruct (first_match is_named l) as (pre & k0 & post & -> & Hpre & Hk0).
  { exists k. split; [exact Hin|]. apply is_named_true. eauto. }
  apply is_named_true in Hk0. destruct Hk0 as [d0 Hk0].
  exists pre, k0, post, d0. repeat split; try apply Hk0.
  - intros x Hx. now apply is_named_false, Hpre.
  - apply (med_name_label_at mc pre k0 post d0); auto.
    intros x Hx. apply is_rxnorm_named_false. intros d'. now apply Hrx.
Qed.

(** C5. A concept whose coding list is non-empty, none of whose codings has
    a display label, and whose free text is non-empty is named by its free
    text. *)
Theorem med_name_text_when_unlabelled (mc : CodeableConcept.t)
    (l : list Coding.t) (t : string) :
  CodeableConcept.coding mc = Some l ->
  l <> [] ->
  (forall k, In k l -> unlabelled k) ->
  CodeableConcept.text mc = Some t ->
  t <> "" ->
  _med_name (Some mc) = t.
Proof.
  intros E _ Hl Et Nt.
  rewrite (med_name_no_label mc l E).
  - now apply text_or_unnamed_text.
  - intros x Hx. now apply is_named_false, Hl.
Qed.

(** C6, as amended. A concept with no codings (the list absent or empty) and
    no free text (absent or empty) is named by the fixed sentinel
    ["Unnamed Medication"]. *)
Theorem med_name_unnamed_sentinel (mc : CodeableConcept.t) :
  CodeableConcept.coding mc = None \/ CodeableConcept.coding mc = Some [] ->
  CodeableConcept.text mc = None \/ CodeableConcept.text mc = Some "" ->
  _med_name (Some mc) = "Unnamed Medication".
Proof.
  intros Hc Ht.
  rewrite med_name_without_codings by now apply truthy_list_false.
  now apply text_or_unnamed_sentinel.
Qed.

(** ** Splitting a reference string *)

Section Split.
Variable sep : ascii.

(** The first piece holds no separator; either it is the whole string, or
    the string goes on with a separator and the other pieces are those of
    what follows it. *)
Lemma split_head (s : string) :
  exists w ws,
    split sep s = w :: ws
    /\ str_contains sep w = false
    /\ ((ws = [] /\ s = w)
        \/ exists rest, s = (w ++ String sep rest)%string /\ ws = split sep rest).
Proof.
  induction s as [|a r IH]; simpl.
  - exists "", []. auto.
  - destruct IH as (w & ws & E & Hw & Hs).
    destruct (Ascii.eqb_spec a sep) as [->|N].
    + exists "", (split sep r). repeat split. right. exists r. auto.
    + rewrite E. exists (String a w), ws. repeat split.
      * simpl. rewrite Hw. now apply Ascii.eqb_neq in N; rewrite N.
      * destruct Hs as [[-> ->]|(rest & -> & ->)]; [now left|].
        right. exists rest. auto.
Qed.

Lemma str_contains_app_sep (w rest : string) :
  str_contains sep (w ++ String sep rest)%string = true.
Proof.
  induction w as [|a w IH]; simpl.
  - now rewrite Ascii.eqb_refl.
  - rewrite IH. apply orb_true_r.
Qed.

Lemma append_empty_r (s : string) : (s ++ "")%string = s.
Proof. induction s as [|a s IH]; simpl; congruence. Qed.

(** The piece at index 1 of a string that holds the separator: what stands
    between the first separator and the next one, or the end. *)
Lemma split_index_1 (s : string) :
  str_contains sep s = true ->
  exists a med_id rest,
    nth_error (split sep s) 1 = Some med_id
    /\ s = (a ++ String sep (med_id ++ rest))%string
    /\ str_contains sep a = false
    /\ str_contains sep med_id = false
    /\ (rest = "" \/ exists rest', rest = String sep rest').
Proof.
  intros Hs.
  destruct (split_head s) as (a & ws & E & Ha & [[_ ->]|(r & -> & ->)]);
    [congruence|].
  destruct (split_head r) as (m & ws' & E' & Hm & Hr).
  rewrite E, E'. simpl.
  destruct Hr as [[_ ->]|(r' & -> & _)].
  - exists a, m, "". rewrite append_empty_r. auto 6.
  - exists a, m, (String sep r'). repeat split; eauto.
Qed.
End Split.

(** ** The fetch by reference: [_get_medication_by_ref] *)

Ltac run :=
  unfold outcome_of, trace_of, name_or_not_found, logging_debug, logging_info,
    logging_warning, logging_error, logging_exception, Medication_read,
    smart_handle_callback, try_except, bind, emit, ret, raise;
  simpl.

Lemma str_contains_nonempty (c : ascii) (r : string) :
  str_contains c r = true -> r <> "".
Proof. destruct r; simpl; [discriminate | discriminate]. Qed.

Lemma ref_guard_false (r : string) :
  str_contains slash r = true ->
  (r =? "") || negb (str_contains slash r) = false.
Proof.
  intros H. rewrite H. simpl.
  rewrite orb_false_r. apply String.eqb_neq. now apply str_contains_nonempty in H.
Qed.

(** A reference without a slash is refused before anything is read. *)
Lemma get_medication_by_ref_malformed (r : string) (smart : option FHIRClient.t) :
  str_contains slash r = false ->
  _get_medication_by_ref (Some r) smart =
    ([Log ERROR ("Invalid medication reference format: " ++ r)], Return None).
Proof.
  intros H. unfold _get_medication_by_ref. rewrite H. simpl.
  rewrite orb_true_r. reflexivity.
Qed.

(** With a slash in the reference and a server at hand, one read is made, for
    the piece at index 1; its result, or [None] when it raises, comes back. *)
Lemma get_medication_by_ref_reads (r : string) (sm : FHIRClient.t)
    (srv : FHIRServer.t) (med_id : string) :
  str_contains slash r = true ->
  FHIRClient.server sm = Some srv ->
  nth_error (split slash r) 1 = Some med_id ->
  _get_medication_by_ref (Some r) (Some sm) =
    match FHIRServer.read srv med_id with
    | Return m =>
        ([Log INFO ("Reading Medication/" ++ med_id); MedicationRead med_id],
         Return (Medication.code m))
    | Raise e =>
        ([Log INFO ("Reading Medication/" ++ med_id); MedicationRead med_id;
          LogException ("Failed to read Medication/" ++ med_id) e],
         Return None)
    end.
Proof.
  intros H Es En. unfold _get_medication_by_ref.
  rewrite (ref_guard_false r H), En, Es. run.
  destruct (FHIRServer.read srv med_id); reflexivity.
Qed.

(** Without a server nothing is read. *)
Lemma get_medication_by_ref_no_server (r : string) (smart : option FHIRClient.t) :
  str_contains slash r = true ->
  match smart with Some sm => FHIRClient.server sm = None | None => True end ->
  _get_medication_by_ref (Some r) smart =
    ([Log ERROR "FHIR client server unavailable for medication lookup"],
     Return None).
Proof.
  intros H Hs. unfold _get_medication_by_ref.
  rewrite (ref_guard_false r H).
  destruct (split_index_1 slash r H) as (a & med_id & rest & En & _).
  rewrite En. destruct smart as [sm|]; [rewrite Hs|]; reflexivity.
Qed.

(** The guard on the slash makes the subscript safe: the helper always
    returns, whatever the reference, the client and the server do. *)
Lemma get_medication_by_ref_returns (ref : option string)
    (smart : option FHIRClient.t) :
  exists v, outcome_of (_get_medication_by_ref ref smart) = Return v.
Proof.
  destruct ref as [r|]; [|eexists; reflexivity].
  destruct (str_contains slash r) eqn:H.
  - destruct (split_index_1 slash r H) as (a & med_id & rest & En & _).
    destruct smart as [sm|];
      [destruct (FHIRClient.server sm) as [srv|] eqn:Es|].
    + rewrite (get_medication_by_ref_reads r sm srv med_id H Es En).
      destruct (FHIRServer.read srv med_id); eexists; reflexivity.
    + rewrite get_medication_by_ref_no_server; auto. eexists; reflexivity.
    + rewrite get_medication_by_ref_no_server; auto. eexists; reflexivity.
  - rewrite get_medication_by_ref_malformed by exact H. eexists; reflexivity.
Qed.

(** ** The resolver: [_get_med_name] *)

Lemma get_med_name_inline (p : MedicationRequest.t) (mc : CodeableConcept.t)
    (smart : option FHIRClient.t) :
  inline p mc ->
  _get_med_name (Some p) smart = ([], Return (_med_name (Some mc))).
Proof.
  unfold inline. intros E. unfold _get_med_name. rewrite E.
  destruct (truthy_list (CodeableConcept.coding mc)) eqn:Ec; cbn [negb].
  - reflexivity.
  - rewrite (med_name_without_codings mc Ec). unfold text_or_unnamed.
    destruct (as_truthy (CodeableConcept.text mc)) eqn:Et; [reflexivity|].
    unfold name_or_not_found.
    rewrite (med_name_without_codings mc Ec). unfold text_or_unnamed.
    now rewrite Et.
Qed.

Lemma get_med_name_no_fetch (p : MedicationRequest.t)
    (smart : option FHIRClient.t) :
  MedicationRequest.medicationCodeableConcept p = None ->
  truthy_str (reference_of p) && is_some smart = false ->
  outcome_of (_get_med_name (Some p) smart) = Return NOT_FOUND.
Proof.
  intros E H. unfold _get_med_name. rewrite E, H. reflexivity.
Qed.

(** When the fetch is attempted, the resolver ends as the fetch decides. *)
Lemma get_med_name_fetch (p : MedicationRequest.t) (r : string)
    (sm : FHIRClient.t) (t : list event) (v : option CodeableConcept.t) :
  MedicationRequest.medicationCodeableConcept p = None ->
  reference_of p = Some r ->
  r <> "" ->
  _get_medication_by_ref (Some r) (Some sm) = (t, Return v) ->
  outcome_of (_get_med_name (Some p) (Some sm)) =
    Return (match v with Some _ => _med_name v | None => NOT_FOUND end).
Proof.
  intros E Er Nr Ef. unfold _get_med_name. rewrite E, Er.
  cbn [truthy_str is_some]. apply String.eqb_neq in Nr. rewrite Nr.
  cbn [negb andb]. unfold bind, logging_debug, emit. cbv beta iota.
  rewrite Ef. destruct v; reflexivity.
Qed.

Lemma fetched_inv (p : MedicationRequest.t) (r : string) (sm : FHIRClient.t)
    (srv : FHIRServer.t) (med_id : string) (mc : CodeableConcept.t) :
  reference_of p = Some r ->
  FHIRClient.server sm = Some srv ->
  nth_error (split slash r) 1 = Some med_id ->
  fetched p (Some sm) mc ->
  exists m, FHIRServer.read srv med_id = Return m /\ Medication.code m = Some mc.
Proof.
  intros Er Es En (_ & r' & sm' & srv' & id' & m & Er' & _ & Esm & Es' & En' & Em & Ec).
  inversion Esm; subst sm'. rewrite Er in Er'. inversion Er'; subst r'.
  rewrite Es in Es'. inversion Es'; subst srv'.
  rewrite En in En'. inversion En'; subst id'. eauto.
Qed.

(** What the resolver returns for a prescription that is there: the name of
    the concept it resolved, or the not-found sentinel when there is none. *)
Lemma get_med_name_cases (p : MedicationRequest.t) (smart : option FHIRClient.t) :
  exists s,
    outcome_of (_get_med_name (Some p) smart) = Return s
    /\ ((exists mc, resolves p smart mc /\ s = _med_name (Some mc))
        \/ ((forall mc, ~ resolves p smart mc) /\ s = NOT_FOUND)).
Proof.
  destruct (MedicationRequest.medicationCodeableConcept p) as [mc|] eqn:E.
  { exists (_med_name (Some mc)). split.
    - now rewrite (get_med_name_inline p mc smart E).
    - left. exists mc. split; [now left | reflexivity]. }
  assert (Hinl : forall mc, ~ inline p mc) by (unfold inline; congruence).
  destruct (truthy_str (reference_of p) && is_some smart) eqn:G.
  2:{ exists NOT_FOUND. split; [now apply get_med_name_no_fetch|].
      right. split; [|reflexivity].
      intros mc [Hi|(_ & r & sm & srv & id' & m & Er & Hr & Esm & _)];
        [now apply (Hinl mc)|].
      rewrite Er, Esm in G. simpl in G. rewrite andb_true_r in G.
      apply negb_false_iff, String.eqb_eq in G. subst r. discriminate Hr. }
  apply andb_true_iff in G. destruct G as [Gr Gs].
  apply truthy_str_true in Gr. destruct Gr as (r & Er & Nr).
  destruct smart as [sm|]; [clear Gs | discriminate Gs].
  destruct (str_contains slash r) eqn:Hr.
  2:{ exists NOT_FOUND. split.
      - rewrite (get_med_name_fetch p r sm _ None E Er Nr
                   (get_medication_by_ref_malformed r (Some sm) Hr)).
        reflexivity.
      - right. split; [|reflexivity].
        intros mc [Hi|(_ & r' & _ & _ & _ & _ & Er' & Hr' & _)];
          [now apply (Hinl mc)|].
        rewrite Er in Er'. inversion Er'; subst r'. congruence. }
  destruct (split_index_1 slash r Hr) as (a & med_id & rest & En & _).
  destruct (FHIRClient.server sm) as [srv|] eqn:Es.
  2:{ exists NOT_FOUND. split.
      - rewrite (get_med_name_fetch p r sm _ None E Er Nr
                   (get_medication_by_ref_no_server r (Some sm) Hr Es)).
        reflexivity.
      - right. split; [|reflexivity].
        intros mc [Hi|(_ & _ & sm' & srv' & _ & _ & _ & _ & Esm & Es' & _)];
          [now apply (Hinl mc)|].
        inversion Esm; subst sm'. congruence. }
  pose proof (get_medication_by_ref_reads r sm srv med_id Hr Es En) as Ef.
  destruct (FHIRServer.read srv med_id) as [m|e] eqn:Em.
  - rewrite (get_med_name_fetch p r sm _ _ E Er Nr Ef).
    destruct (Medication.code m) as [mc|] eqn:Ec.
    + exists (_med_name (Some mc)). split; [reflexivity|].
      left. exists mc. split; [|reflexivity]. right. split; [exact E|].
      exists r, sm, srv, med_id, m. auto 10.
    + exists NOT_FOUND. split; [reflexivity|]. right. split; [|reflexivity].
      intros mc [Hi|Hf]; [now apply (Hinl mc)|].
      destruct (fetched_inv p r sm srv med_id mc Er Es En Hf) as (m' & Em' & Ec').
      congruence.
  - rewrite (get_med_name_fetch p r sm _ _ E Er Nr Ef).
    exists NOT_FOUND. split; [reflexivity|]. right. split; [|reflexivity].
    intros mc [Hi|Hf]; [now apply (Hinl mc)|].
    destruct (fetched_inv p r sm srv med_id mc Er Es En Hf) as (m' & Em' & _).
    congruence.
Qed.

Lemma next_Some {A B} (proj : A -> option B) (cond : A -> bool) (l : list A)
    (d : B) :
  next proj cond l None = Some d ->
  exists k, In k l /\ cond k = true /\ proj k = Some d.
Proof.
  induction l as [|x l IH]; simpl; [discriminate|].
  destruct (cond x) eqn:Ex; intros H.
  - exists x. auto.
  - destruct (IH H) as (k & Hin & Hk). exists k. auto.
Qed.

(** Where a name comes from: it is never empty, and it is the last sentinel
    or a string the concept carries. *)
Lemma med_name_sources (mc : CodeableConcept.t) :
  _med_name (Some mc) <> ""
  /\ (_med_name (Some mc) = "Unnamed Medication"
      \/ carries mc (_med_name (Some mc))).
Proof.
  assert (T : text_or_unnamed mc <> ""
              /\ (text_or_unnamed mc = "Unnamed Medication"
                  \/ carries mc (text_or_unnamed mc))).
  { unfold text_or_unnamed.
    destruct (as_truthy (CodeableConcept.text mc)) as [t|] eqn:Et.
    - apply as_truthy_Some in Et. destruct Et as [Et Nt].
      split; [exact Nt | right; now left].
    - split; [discriminate | now left]. }
  assert (N : forall cond n,
             as_truthy (next Coding.display cond
                          (items (CodeableConcept.coding mc)) None) = Some n ->
             n <> "" /\ carries mc n).
  { intros cond n H. apply as_truthy_Some in H. destruct H as [H Nn].
    split; [exact Nn|]. apply next_Some in H. destruct H as (k & Hin & _ & Hk).
    right. eauto. }
  unfold _med_name.
  destruct (truthy_list (CodeableConcept.coding mc)); [|exact T].
  cbv zeta.
  destruct (as_truthy (next Coding.display is_rxnorm_named _ None)) as [n|] eqn:E1.
  { destruct (N _ _ E1). auto. }
  destruct (as_truthy (next Coding.display is_named _ None)) as [n|] eqn:E2.
  { destruct (N _ _ E2). auto. }
  exact T.
Qed.

Lemma med_name_nonempty (med_code : option CodeableConcept.t) :
  _med_name med_code <> "".
Proof.
  destruct med_code as [mc|]; [apply med_name_sources | discriminate].
Qed.

(** C1. Whatever the prescription (absent, with an inline concept, with a
    reference, with neither) and whatever the client handle and its server
    do, the resolver returns, and what it returns is a non-empty string. *)
Theorem get_med_name_returns_nonempty (prescription : option MedicationRequest.t)
    (smart_client : option FHIRClient.t) :
  exists s,
    outcome_of (_get_med_name prescription smart_client) = Return s
    /\ s <> "".
Proof.
  destruct prescription as [p|].
  - destruct (get_med_name_cases p smart_client)
      as (s & Hs & [(mc & _ & ->)|(_ & ->)]); eexists; split; try exact Hs.
    + apply med_name_nonempty.
    + discriminate.
  - exists "Invalid prescription data". split; [reflexivity | discriminate].
Qed.

(** C3. A prescription whose inline concept has no codings and a non-empty
    free text resolves to exactly that text; nothing is logged, nothing is
    read from the server, and the reference and the client handle play no
    part. *)
Theorem inline_text_returned (p : MedicationRequest.t) (mc : CodeableConcept.t)
    (t : string) (smart_client : option FHIRClient.t) :
  MedicationRequest.medicationCodeableConcept p = Some mc ->
  CodeableConcept.coding mc = None \/ CodeableConcept.coding mc = Some [] ->
  CodeableConcept.text mc = Some t ->
  t <> "" ->
  _get_med_name (Some p) smart_client = ([], Return t).
Proof.
  intros E Hc Et Nt. unfold _get_med_name. rewrite E.
  rewrite (proj2 (truthy_list_false _) Hc). cbn [negb].
  now rewrite (proj2 (as_truthy_Some _ _) (conj Et Nt)).
Qed.

Lemma split_without_sep (sep : ascii) (s : string) :
  str_contains sep s = false -> split sep s = [s].
Proof.
  induction s as [|a s IH]; simpl; [reflexivity|].
  intros H. apply orb_false_iff in H. destruct H as [Ha Hs].
  now rewrite Ha, (IH Hs).
Qed.

Lemma unresolved_not_fetched (p : MedicationRequest.t)
    (smart : option FHIRClient.t) (mc : CodeableConcept.t) :
  unresolved p smart -> ~ fetched p smart mc.
Proof.
  intros U (_ & r & sm & srv & med_id & m & Er & Hr & Esm & Es & En & Em & _).
  destruct U as [[H|H]|H|r' Er' Hr'|r' sm' srv' id' e Er' Esm' Es' En' Em'].
  - congruence.
  - rewrite Er in H. inversion H; subst r. discriminate Hr.
  - congruence.
  - congruence.
  - rewrite Er in Er'. inversion Er'; subst r'.
    rewrite Esm in Esm'. inversion Esm'; subst sm'.
    rewrite Es in Es'. inversion Es'; subst srv'.
    rewrite En in En'. inversion En'; subst id'. congruence.
Qed.

(** C7, as amended. A prescription that is there, has no inline concept, and
    has no reference, or no client to follow it with, or a reference without
    a slash, or a referenced medication whose read raises, resolves to the
    fixed sentinel ["Error: medication details not found"], which is not the
    ["Unnamed Medication"] sentinel; the resolver returns it and raises
    nothing. *)
Theorem not_found_when_unresolved (p : MedicationRequest.t)
    (smart_client : option FHIRClient.t) :
  MedicationRequest.medicationCodeableConcept p = None ->
  unresolved p smart_client ->
  outcome_of (_get_med_name (Some p) smart_client)
    = Return "Error: medication details not found"
  /\ "Error: medication details not found" <> "Unnamed Medication".
Proof.
  intros E U. split; [|discriminate].
  destruct (get_med_name_cases p smart_client)
    as (s & Hs & [(mc & [Hi|Hf] & _)|(_ & ->)]).
  - unfold inline in Hi. congruence.
  - now destruct (unresolved_not_fetched p smart_client mc U).
  - exact Hs.
Qed.

(** C9, as amended. [_med_name] answers an absent concept with the sentinel
    ["Medication data unavailable"]; the resolver calls it only on a concept
    it resolved, so when the resolver returns that string, the string is the
    free text or a display label of the resolved concept. *)
Theorem unavailable_only_from_data (prescription : option MedicationRequest.t)
    (smart_client : option FHIRClient.t) (s : string) :
  outcome_of (_get_med_name prescription smart_client) = Return s ->
  s = _med_name None ->
  s = "Medication data unavailable"
  /\ exists p mc,
       prescription = Some p /\ resolves p smart_client mc /\ carries mc s.
Proof.
  intros Hs Hu. split; [exact Hu|].
  destruct prescription as [p|].
  - destruct (get_med_name_cases p smart_client) as (s' & Hs' & H).
    assert (Heq : s' = s) by congruence. rewrite Heq in H.
    destruct H as [(mc & Hr & E)|(_ & E)].
    + exists p, mc. repeat split; [exact Hr|].
      destruct (med_name_sources mc) as [_ [U|C]].
      * rewrite <- E, Hu in U. discriminate U.
      * now rewrite <- E in C.
    + rewrite Hu in E. discriminate E.
  - simpl in Hs. rewrite Hu in Hs. discriminate Hs.
Qed.

(** C10. For a reference with a slash in it (and a client with a server, so
    that a read is made) the one medication read is for the piece at index 1
    of the split: the reference is [a], a slash, the id, and a rest that is
    empty or starts with the next slash, with no slash in [a] or in the id.
    The id is what follows the first slash, not the last piece. *)
Theorem fetch_uses_piece_after_first_slash (r : string) (sm : FHIRClient.t)
    (srv : FHIRServer.t) :
  str_contains slash r = true ->
  FHIRClient.server sm = Some srv ->
  exists a med_id rest,
    r = (a ++ "/" ++ med_id ++ rest)%string
    /\ str_contains slash a = false
    /\ str_contains slash med_id = false
    /\ (rest = "" \/ exists rest', rest = ("/" ++ rest')%string)
    /\ nth_error (split slash r) 1 = Some med_id
    /\ reads (trace_of (_get_medication_by_ref (Some r) (Some sm))) = [med_id].
Proof.
  intros Hr Es.
  destruct (split_index_1 slash r Hr) as (a & med_id & rest & En & E & Ha & Hm & Hrest).
  exists a, med_id, rest. repeat split; auto.
  rewrite (get_medication_by_ref_reads r sm srv med_id Hr Es En).
  destruct (FHIRServer.read srv med_id); reflexivity.
Qed.

(** ** The callback route *)

Lemma string_app_assoc (a b c : string) :
  ((a ++ b) ++ c = a ++ (b ++ c))%string.
Proof. induction a as [|x a IH]; simpl; congruence. Qed.

(** C8, as amended. With a client handle at hand the callback handler always
    returns a response.  Without a [code] parameter, or with an empty one
    (the test [not auth_code] does not tell them apart), it is the error page
    and nothing is handed over.  Otherwise the full URL of the request is
    handed to the client's callback processor, once; the response is the
    redirect to [/] when the processor returns, and the error page with the
    exception's text and the link back to [/] when it raises. *)
Theorem callback_outcomes (sm : FHIRClient.t) (request : Request) :
  let m := callback (Some sm) request in
  match args_get "code" (args request) with
  | None => outcome_of m = Return (Html code_missing_page) /\ handoffs (trace_of m) = []
  | Some c =>
      if c =? "" then
        outcome_of m = Return (Html code_missing_page) /\ handoffs (trace_of m) = []
      else
        handoffs (trace_of m) = [url request]
        /\ match FHIRClient.handle_callback sm (url request) with
           | Return _ => outcome_of m = Return (Redirect "/")
           | Raise e =>
               outcome_of m = Return (Html (start_over_page e))
               /\ exists before,
                    start_over_page e =
                      (before ++ "<a href=" ++ dq ++ "/" ++ dq
                         ++ ">Start over</a></p>")%string
           end
  end.
Proof.
  cbv zeta. unfold callback.
  destruct (args_get "code" (args request)) as [c|] eqn:Ec.
  - cbn [truthy_str]. destruct (c =? "") eqn:E; cbn [negb].
    + split; reflexivity.
    + run. destruct (FHIRClient.handle_callback sm (url request)) as [st|e]; simpl.
      * split; reflexivity.
      * repeat split.
        exists ("<h1>Authorization Error</h1><p>" ++ exn_str e ++ "</p><p>")%string.
        unfold start_over_page. now rewrite !string_app_assoc.
  - split; reflexivity.
Qed.

(** * Concrete runs *)

(** ** Label selection *)

Lemma med_name_prefers_rxnorm_witness :
  (exists k d, In k (items (CodeableConcept.coding aspirin_concept))
               /\ rxnorm_labelled k d)
  /\ exists pre k post d,
       CodeableConcept.coding aspirin_concept = Some (pre ++ k :: post)
       /\ (forall x d', In x pre -> ~ rxnorm_labelled x d')
       /\ rxnorm_labelled k d
       /\ _med_name (Some aspirin_concept) = d.
Proof.
  assert (H : exists k d, In k (items (CodeableConcept.coding aspirin_concept))
                          /\ rxnorm_labelled k d).
  { exists aspirin_rxnorm, "Aspirin 81 MG Oral Tablet".
    split; [simpl; auto | repeat split; discriminate]. }
  split; [exact H | exact (med_name_prefers_rxnorm aspirin_concept H)].
Defined.

(** The RxNorm label wins although it stands second and a text is there. *)
Example med_name_aspirin :
  _med_name (Some aspirin_concept) = "Aspirin 81 MG Oral Tablet".
Proof. reflexivity. Qed.

Lemma med_name_first_label_witness :
  exists pre k post d,
    CodeableConcept.coding local_concept = Some (pre ++ k :: post)
    /\ (forall x, In x pre -> unlabelled x)
    /\ labelled k d
    /\ _med_name (Some local_concept) = d.
Proof.
  apply (med_name_first_label local_concept).
  - simpl. intros x d [<-|[<-|[]]] [Hs _]; discriminate Hs.
  - exists asa_local, "ASA". split; [simpl; auto | split; [reflexivity | discriminate]].
Defined.

Example med_name_local : _med_name (Some local_concept) = "ASA".
Proof. reflexivity. Qed.

Lemma med_name_text_when_unlabelled_witness :
  _med_name (Some unlabelled_concept) = "Aspirin 81mg".
Proof.
  apply (med_name_text_when_unlabelled unlabelled_concept [code_only]).
  - reflexivity.
  - discriminate.
  - intros k [<-|[]]. left. reflexivity.
  - reflexivity.
  - discriminate.
Defined.

Lemma med_name_unnamed_sentinel_witness :
  _med_name (Some empty_concept) = "Unnamed Medication".
Proof.
  apply (med_name_unnamed_sentinel empty_concept); left; reflexivity.
Defined.

(** C6, the claim as worded: the concept has neither codings nor text, and
    the helper's answer is not the lower-case string. *)
Lemma med_name_unnamed_literal :
  CodeableConcept.coding empty_concept = None
  /\ CodeableConcept.text empty_concept = None
  /\ _med_name (Some empty_concept) <> "unnamed medication".
Proof. repeat split. discriminate. Qed.

(** ** The resolver *)

Lemma inline_text_returned_witness :
  _get_med_name (Some (with_inline text_only_concept)) (Some offline_client)
    = ([], Return "Aspirin 81mg").
Proof.
  apply (inline_text_returned (with_inline text_only_concept) text_only_concept).
  - reflexivity.
  - right. reflexivity.
  - reflexivity.
  - discriminate.
Defined.

Lemma not_found_when_unresolved_witness :
  outcome_of (_get_med_name (Some (by_reference "Medication/123"))
                (Some offline_client))
    = Return "Error: medication details not found"
  /\ "Error: medication details not found" <> "Unnamed Medication".
Proof.
  apply (not_found_when_unresolved (by_reference "Medication/123")).
  - reflexivity.
  - apply (fetch_raises _ _ "Medication/123" offline_client failing_server
             "123" network_error); reflexivity.
Defined.

(** The failed read is logged and folded into the fallback. *)
Example get_med_name_failed_read :
  _get_med_name (Some (by_reference "Medication/123")) (Some offline_client)
    = ([Log DEBUG "Fetching medication reference: Medication/123";
        Log INFO "Reading Medication/123";
        MedicationRead "123";
        LogException "Failed to read Medication/123" network_error;
        Log WARNING "Could not resolve medication name for prescription rx-2"],
       Return "Error: medication details not found").
Proof. reflexivity. Qed.

(** C7, the claim as worded: a prescription with neither an inline concept
    nor a reference does not resolve to the string without its prefix. *)
Lemma not_found_literal :
  MedicationRequest.medicationCodeableConcept bare_prescription = None
  /\ MedicationRequest.medicationReference bare_prescription = None
  /\ outcome_of (_get_med_name (Some bare_prescription) (Some offline_client))
       <> Return "medication details not found".
Proof. repeat split. discriminate. Qed.

Lemma unavailable_only_from_data_witness :
  "Medication data unavailable" = "Medication data unavailable"
  /\ exists p mc,
       Some (with_inline unavailable_text_concept) = Some p
       /\ resolves p None mc
       /\ carries mc "Medication data unavailable".
Proof.
  apply (unavailable_only_from_data
           (Some (with_inline unavailable_text_concept)) None); reflexivity.
Defined.

(** C9, the claim as worded: the resolver does return the string, for a
    prescription whose inline concept has it as free text. *)
Lemma unavailable_returned_from_text :
  outcome_of (_get_med_name (Some (with_inline unavailable_text_concept)) None)
    = Return "Medication data unavailable".
Proof. reflexivity. Qed.

(** ** The fetch by reference *)

Lemma fetch_uses_piece_after_first_slash_witness :
  exists a med_id rest,
    absolute_reference = (a ++ "/" ++ med_id ++ rest)%string
    /\ str_contains slash a = false
    /\ str_contains slash med_id = false
    /\ (rest = "" \/ exists rest', rest = ("/" ++ rest')%string)
    /\ nth_error (split slash absolute_reference) 1 = Some med_id
    /\ reads (trace_of (_get_medication_by_ref (Some absolute_reference)
                          (Some offline_client))) = [med_id].
Proof.
  apply (fetch_uses_piece_after_first_slash absolute_reference offline_client
           failing_server); reflexivity.
Defined.

(** For an absolute URL the id read is the empty piece between the two
    slashes after the scheme, not the last piece. *)
Example absolute_reference_read :
  split slash absolute_reference
    = ["https:"; ""; "srv"; "fhir"; "Medication"; "123"]
  /\ reads (trace_of (_get_medication_by_ref (Some absolute_reference)
                        (Some offline_client))) = [""].
Proof. split; reflexivity. Qed.

Example versioned_reference_read :
  reads (trace_of (_get_medication_by_ref (Some "Medication/123/_history/2")
                     (Some offline_client))) = ["123"].
Proof. reflexivity. Qed.

(** ** The callback *)

Example callback_redirects :
  let ok := FHIRClient.mk None (fun _ => Return (FHIRClient.mkStatus true (Some "p1"))) in
  callback (Some ok) (mkRequest "https://app/fhir-app/?code=abc&state=xyz"
                        [("code", "abc"); ("state", "xyz")])
    = ([Log DEBUG "Handling callback: https://app/fhir-app/?code=abc&state=xyz";
        HandleCallback "https://app/fhir-app/?code=abc&state=xyz";
        Log INFO "Callback successful (Placeholder). Ready state: True, Patient ID: p1"],
       Return (Redirect "/")).
Proof. reflexivity. Qed.

Example callback_without_code :
  outcome_of (callback (Some offline_client)
                (mkRequest "https://app/fhir-app/?state=xyz" [("state", "xyz")]))
    = Return (Html code_missing_page).
Proof. reflexivity. Qed.

Example callback_failed_handoff :
  outcome_of (callback (Some offline_client)
                (mkRequest "https://app/fhir-app/?code=abc" [("code", "abc")]))
    = Return (Html (start_over_page network_error)).
Proof. reflexivity. Qed.

(** C8, the claim as worded: the [code] parameter is there, with an empty
    value, and the callback processor of the client would return; still
    nothing is handed over and the response is the error page, not the
    redirect. *)
Lemma callback_empty_code_not_handed_over :
  args_get "code" (args empty_code_request) = Some ""
  /\ (exists st,
        FHIRClient.handle_callback working_client (url empty_code_request)
          = Return st)
  /\ handoffs (trace_of (callback (Some working_client) empty_code_request)) = []
  /\ outcome_of (callback (Some working_client) empty_code_request)
       = Return (Html code_missing_page)
  /\ outcome_of (callback (Some working_client) empty_code_request)
       <> Return (Redirect "/").
Proof.
  split; [reflexivity|]. split; [eexists; reflexivity|].
  split; [reflexivity|]. split; [reflexivity | discriminate].
Qed.

(** * The session helpers and the other routes *)

(** ** Dictionaries *)

Section Dict.
Variables (k : string) (v : pyval).

Lemma dict_get_set_same (d : dict) : dict_get k (dict_set k v d) = v.
Proof.
  induction d as [|[k' v'] d IH]; simpl.
  - now rewrite String.eqb_refl.
  - destruct (k' =? k) eqn:E; simpl.
    + now rewrite String.eqb_refl.
    + now rewrite E.
Qed.

Lemma dict_contains_set_same (d : dict) :
  dict_contains k (dict_set k v d) = true.
Proof.
  induction d as [|[k' v'] d IH]; simpl.
  - now rewrite String.eqb_refl.
  - destruct (k' =? k) eqn:E; simpl.
    + now rewrite String.eqb_refl.
    + now rewrite E.
Qed.

Lemma dict_get_set_other (k0 : string) (d : dict) :
  k0 <> k -> dict_get k0 (dict_set k v d) = dict_get k0 d.
Proof.
  intros N. induction d as [|[k' v'] d IH]; simpl.
  - apply not_eq_sym, String.eqb_neq in N. now rewrite N.
  - destruct (k' =? k) eqn:E; simpl.
    + apply String.eqb_eq in E. subst k'.
      apply not_eq_sym, String.eqb_neq in N. now rewrite N.
    + now rewrite IH.
Qed.

Lemma dict_contains_set_other (k0 : string) (d : dict) :
  k0 <> k -> dict_contains k0 (dict_set k v d) = dict_contains k0 d.
Proof.
  intros N. induction d as [|[k' v'] d IH]; simpl.
  - apply not_eq_sym, String.eqb_neq in N. now rewrite N.
  - destruct (k' =? k) eqn:E; simpl.
    + apply String.eqb_eq in E. subst k'.
      apply not_eq_sym, String.eqb_neq in N. now rewrite N.
    + now rewrite IH.
Qed.

Lemma dict_get_pop_same (d : dict) : dict_get k (dict_pop k d) = PyNone.
Proof.
  induction d as [|[k' v'] d IH]; simpl; [reflexivity|].
  destruct (k' =? k) eqn:E; simpl; [exact IH | now rewrite E].
Qed.

Lemma dict_contains_pop_same (d : dict) :
  dict_contains k (dict_pop k d) = false.
Proof.
  induction d as [|[k' v'] d IH]; simpl; [reflexivity|].
  destruct (k' =? k) eqn:E; simpl; [exact IH | now rewrite E].
Qed.

Lemma dict_get_pop_other (k0 : string) (d : dict) :
  k0 <> k -> dict_get k0 (dict_pop k d) = dict_get k0 d.
Proof.
  intros N. induction d as [|[k' v'] d IH]; simpl; [reflexivity|].
  destruct (k' =? k) eqn:E; simpl.
  - apply String.eqb_eq in E. subst k'.
    apply not_eq_sym, String.eqb_neq in N. now rewrite N.
  - now rewrite IH.
Qed.

Lemma dict_contains_pop_other (k0 : string) (d : dict) :
  k0 <> k -> dict_contains k0 (dict_pop k d) = dict_contains k0 d.
Proof.
  intros N. induction d as [|[k' v'] d IH]; simpl; [reflexivity|].
  destruct (k' =? k) eqn:E; simpl.
  - apply String.eqb_eq in E. subst k'.
    apply not_eq_sym, String.eqb_neq in N. now rewrite N.
  - now rewrite IH.
Qed.

Lemma dict_pop_absent (d : dict) :
  dict_contains k d = false -> dict_pop k d = d.
Proof.
  induction d as [|[k' v'] d IH]; simpl; [reflexivity|].
  intros H. apply orb_false_iff in H. destruct H as [E H].
  rewrite E. now rewrite IH.
Qed.
End Dict.

Lemma dict_get_absent (k : string) (d : dict) :
  dict_contains k d = false -> dict_get k d = PyNone.
Proof.
  induction d as [|[k' v'] d IH]; simpl; [reflexivity|].
  intros H. apply orb_false_iff in H. destruct H as [E H].
  rewrite E. now apply IH.
Qed.

(** ** What the library's saves do to the session *)

Lemma saved_into_other (k : string) (saved : list pyval) (session : dict) :
  k <> "state" ->
  dict_get k (saved_into saved session) = dict_get k session
  /\ dict_contains k (saved_into saved session) = dict_contains k session.
Proof.
  intros N. revert session.
  induction saved as [|v saved IH]; intros session; simpl; [auto|].
  destruct (IH (session_after (_save_state v) session)) as [-> ->].
  unfold session_after, _save_state. simpl.
  now rewrite dict_get_set_other, dict_contains_set_other.
Qed.

Lemma saved_into_keeps_state (saved : list pyval) (session : dict) :
  dict_contains "state" session = true ->
  dict_contains "state" (saved_into saved session) = true.
Proof.
  revert session. induction saved as [|v saved IH]; intros session H; simpl;
    [exact H|].
  apply IH. unfold session_after, _save_state. simpl.
  apply dict_contains_set_same.
Qed.

Lemma library_call_run {A} (c : effect) (x : ext A) (session : dict) :
  library_call c x session = (saved_into (fst x) session, ([c], snd x)).
Proof. reflexivity. Qed.

(** ** The client factory: [_get_smart] *)

Lemma get_smart_with_state (w : World) (session : dict) :
  truthy (dict_get "state" session) = true ->
  _get_smart w session =
    (let x := client_from_state w (dict_get "state" session) in
     (saved_into (fst x) session,
      ([NewClientFromState (dict_get "state" session)], made (snd x)))).
Proof.
  intros H. unfold _get_smart. rewrite H. unfold rbind.
  rewrite library_call_run.
  destruct (client_from_state w (dict_get "state" session)) as [saved [sm|e]];
    simpl; reflexivity.
Qed.

Lemma get_smart_without_state (w : World) (session : dict) :
  truthy (dict_get "state" session) = false ->
  _get_smart w session =
    (let x := client_from_settings w (default_settings w) in
     (saved_into (fst x) session,
      ([NewClientFromSettings (default_settings w)], made (snd x)))).
Proof.
  intros H. unfold _get_smart. rewrite H.
  change (truthy (dict_get "api_base" smart_defaults)) with true.
  cbv iota zeta. unfold rbind.
  rewrite library_call_run.
  destruct (client_from_settings w (default_settings w)) as [saved [sm|e]];
    simpl; reflexivity.
Qed.

(** X1. With the defaults of the module, [_get_smart] always goes to the
    library for a client: it makes exactly one constructor call, logs
    nothing, and ends with the client or with the constructor's exception,
    never with [None]. *)
Theorem get_smart_never_none (w : World) (session : dict) :
  result_of (observe (_get_smart w) session) <> Return None
  /\ base_events (effects_of (observe (_get_smart w) session)) = []
  /\ length (library_calls (effects_of (observe (_get_smart w) session))) = 1.
Proof.
  unfold observe.
  destruct (truthy (dict_get "state" session)) eqn:H.
  - rewrite (get_smart_with_state w session H). cbv zeta. simpl.
    repeat split.
    destruct (snd (client_from_state w (dict_get "state" session)));
      discriminate.
  - rewrite (get_smart_without_state w session H). cbv zeta. simpl.
    repeat split.
    destruct (snd (client_from_settings w (default_settings w)));
      discriminate.
Qed.

(** X2. What [_save_state] stored is what the next [_get_smart] builds the
    client from: after saving a truthy state, the one constructor call is the
    one from that state, and the settings are not used. *)
Theorem get_smart_uses_saved_state (w : World) (state : pyval) (session : dict) :
  truthy state = true ->
  observe (_get_smart w) (session_after (_save_state state) session)
    = ([NewClientFromState state], made (snd (client_from_state w state))).
Proof.
  intros H. unfold observe, session_after, _save_state. simpl.
  rewrite get_smart_with_state; rewrite dict_get_set_same; [reflexivity | exact H].
Qed.

(** X3. After [_reset] the next [_get_smart] starts afresh, whatever the
    session held: the client is made from the default settings with the
    process's secret key added, and the defaults are all in them. *)
Theorem get_smart_after_reset (w : World) (session : dict) :
  observe (_get_smart w) (session_after _reset session)
    = ([NewClientFromSettings (default_settings w)],
       made (snd (client_from_settings w (default_settings w))))
  /\ dict_get "secret_key" (default_settings w) = PyBytes (secret_key w)
  /\ forall k, k <> "secret_key" ->
       dict_get k (default_settings w) = dict_get k smart_defaults.
Proof.
  split; [|split].
  - unfold observe, session_after, _reset. simpl.
    rewrite get_smart_without_state; [reflexivity|].
    now rewrite dict_get_pop_same.
  - unfold default_settings. apply dict_get_set_same.
  - intros k N. unfold default_settings. now apply dict_get_set_other.
Qed.

(** ** [/reset] and [/logout] *)

(** X4. The route [/reset] calls nothing in the library and always
    redirects to [/]; it leaves the session without a state and with every
    other key as it was. *)
Theorem reset_clears_state_only (session : dict) :
  observe reset session = ([], Return (Redirect "/"))
  /\ dict_contains "state" (session_after reset session) = false
  /\ forall k, k <> "state" ->
       dict_get k (session_after reset session) = dict_get k session
       /\ dict_contains k (session_after reset session) = dict_contains k session.
Proof.
  unfold observe, session_after, reset, _reset, rbind, rret, tret. simpl.
  repeat split.
  - apply dict_contains_pop_same.
  - now apply dict_get_pop_other.
  - now apply dict_contains_pop_other.
Qed.

Lemma get_smart_run (w : World) (session : dict) :
  exists saved c o,
    _get_smart w session = (saved_into saved session, ([c], made o)).
Proof.
  destruct (truthy (dict_get "state" session)) eqn:E.
  - eexists _, _, _. apply (get_smart_with_state w session E).
  - eexists _, _, _. apply (get_smart_without_state w session E).
Qed.

Lemma logout_with_state_run (w : World) (session : dict) (saved : list pyval)
    (c : effect) (o : outcome Smart.t) :
  dict_contains "state" session = true ->
  _get_smart w session = (saved_into saved session, ([c], made o)) ->
  _logout w session =
    match o with
    | Raise e => (saved_into saved session, ([c], Raise e))
    | Return sm =>
        let s1 := saved_into (fst (Smart.reset_patient sm))
                    (saved_into saved session) in
        match snd (Smart.reset_patient sm) with
        | Return _ => (dict_pop "state" s1, ([c; ResetPatient], Return tt))
        | Raise e => (s1, ([c; ResetPatient], Raise e))
        end
    end.
Proof.
  intros H G. unfold _logout. rewrite H. unfold rbind. rewrite G.
  destruct o as [sm|e]; simpl; [|reflexivity].
  unfold library_call.
  destruct (Smart.reset_patient sm) as [saved' [[]|e]]; reflexivity.
Qed.

(** What [_logout] does on a session that holds a state. *)
Lemma logout_with_state (w : World) (session : dict) :
  dict_contains "state" session = true ->
  exists s1 t,
    dict_contains "state" s1 = true
    /\ (forall k, k <> "state" ->
          dict_get k s1 = dict_get k session
          /\ dict_contains k s1 = dict_contains k session)
    /\ (_logout w session = (dict_pop "state" s1, (t, Return tt))
        \/ exists e, _logout w session = (s1, (t, Raise e))).
Proof.
  intros H. destruct (get_smart_run w session) as (saved & c & o & G).
  rewrite (logout_with_state_run w session saved c o H G).
  assert (K1 : dict_contains "state" (saved_into saved session) = true)
    by now apply saved_into_keeps_state.
  destruct o as [sm|e].
  - cbv zeta. destruct (Smart.reset_patient sm) as [saved' o']. simpl.
    exists (saved_into saved' (saved_into saved session)), [c; ResetPatient].
    split; [now apply saved_into_keeps_state|]. split.
    + intros k N.
      destruct (saved_into_other k saved' (saved_into saved session) N) as [-> ->].
      now apply saved_into_other.
    + destruct o' as [u|e]; [now left | right; now exists e].
  - exists (saved_into saved session), [c]. split; [exact K1|]. split.
    + intros k N. now apply saved_into_other.
    + right. now exists e.
Qed.

Lemma logout_route_run (w : World) (session : dict) :
  logout w session =
    match _logout w session with
    | (s, (t, Return _)) => (s, (t ++ [], Return (Redirect "/")))
    | (s, (t, Raise e)) => (s, (t, Raise e))
    end.
Proof.
  unfold logout, rbind.
  destruct (_logout w session) as [s [t [[]|e]]]; reflexivity.
Qed.

Lemma logout_helper_without_state (w : World) (session : dict) :
  dict_contains "state" session = false ->
  _logout w session = (session, ([], Return tt)).
Proof. intros H. unfold _logout. now rewrite H. Qed.

(** X5. On a session without a state the route [/logout] makes no client
    and calls nothing in the library; it leaves the session as it is, with
    no state in it, and redirects to [/]. *)
Theorem logout_without_state (w : World) (session : dict) :
  dict_contains "state" session = false ->
  logout w session = (session, ([], Return (Redirect "/")))
  /\ dict_get "state" (session_after (logout w) session) = PyNone.
Proof.
  intros H.
  assert (E : logout w session = (session, ([], Return (Redirect "/")))).
  { rewrite logout_route_run. now rewrite (logout_helper_without_state w session H). }
  split; [exact E|].
  unfold session_after. rewrite E. now apply dict_get_absent.
Qed.

(** X6. When the route [/logout] returns, it returns the redirect to [/],
    and the session it leaves has no state, whatever the library saved
    while the patient was reset; every other key is as it was. *)
Theorem logout_clears_state (w : World) (session : dict) (r : Response) :
  result_of (observe (logout w) session) = Return r ->
  r = Redirect "/"
  /\ dict_contains "state" (session_after (logout w) session) = false
  /\ forall k, k <> "state" ->
       dict_get k (session_after (logout w) session) = dict_get k session
       /\ dict_contains k (session_after (logout w) session)
          = dict_contains k session.
Proof.
  unfold result_of, observe, session_after.
  destruct (dict_contains "state" session) eqn:H.
  - destruct (logout_with_state w session H) as (s1 & t & Hs & Hk & [E|[e E]]);
      rewrite logout_route_run, E; simpl; intros Hr; [|discriminate Hr].
    inversion Hr. repeat split.
    + apply dict_contains_pop_same.
    + rewrite dict_get_pop_other by assumption. now apply Hk.
    + rewrite dict_contains_pop_other by assumption. now apply Hk.
  - rewrite logout_route_run, (logout_helper_without_state w session H).
    simpl. intros Hr. inversion Hr. repeat split; auto.
Qed.

(** X7. The route [/logout] has no handler of its own: when making the
    client or resetting the patient raises, the exception leaves the route
    and the state is not removed: the session held a state before and still
    holds one, and every other key is as it was. *)
Theorem logout_failure_keeps_state (w : World) (session : dict) (e : exn) :
  result_of (observe (logout w) session) = Raise e ->
  dict_contains "state" session = true
  /\ dict_contains "state" (session_after (logout w) session) = true
  /\ forall k, k <> "state" ->
       dict_get k (session_after (logout w) session) = dict_get k session.
Proof.
  unfold result_of, observe, session_after.
  destruct (dict_contains "state" session) eqn:H.
  - destruct (logout_with_state w session H) as (s1 & t & Hs & Hk & [E|[e' E]]);
      rewrite logout_route_run, E; simpl; intros Hr; [discriminate Hr|].
    repeat split; [exact Hs|]. intros k N. now apply Hk.
  - rewrite logout_route_run, (logout_helper_without_state w session H).
    simpl. intros Hr. discriminate Hr.
Qed.

(** ** Running computations of the routes *)

Lemma tbind_run {A B} (m : T A) (f : A -> T B) :
  tbind m f =
    match result_of m with
    | Return a => (effects_of m ++ effects_of (f a), result_of (f a))
    | Raise e => (effects_of m, Raise e)
    end.
Proof.
  destruct m as [t [a|e]]; simpl; [|reflexivity].
  destruct (f a); reflexivity.
Qed.

Lemma ttry_run {A} (m : T A) (h : exn -> T A) :
  ttry m h =
    match result_of m with
    | Return a => (effects_of m, Return a)
    | Raise e => (effects_of m ++ effects_of (h e), result_of (h e))
    end.
Proof.
  destruct m as [t [a|e]]; simpl; [reflexivity|].
  destruct (h e); reflexivity.
Qed.

Lemma library_calls_app (t t' : list effect) :
  library_calls (t ++ t') = library_calls t ++ library_calls t'.
Proof. apply filter_app. Qed.

Lemma searches_app (t t' : list effect) :
  searches (t ++ t') = searches t ++ searches t'.
Proof. apply flat_map_app. Qed.

Lemma base_events_app (t t' : list effect) :
  base_events (t ++ t') = base_events t ++ base_events t'.
Proof. apply flat_map_app. Qed.

Lemma reads_app (t t' : list event) : reads (t ++ t') = reads t ++ reads t'.
Proof. apply flat_map_app. Qed.

Lemma library_calls_lift {A} (m : M A) :
  library_calls (effects_of (tlift m)) = [].
Proof.
  unfold tlift, effects_of. simpl.
  induction (fst m) as [|e t IH]; simpl; auto.
Qed.

Lemma base_events_lift {A} (m : M A) :
  base_events (effects_of (tlift m)) = trace_of m.
Proof.
  unfold tlift, effects_of, trace_of. simpl.
  induction (fst m) as [|e t IH]; simpl; congruence.
Qed.

(** A comprehension over computations that all return returns the list of
    what they return, one for each element and in order. *)
Lemma tmap_returns {A B} (f : A -> T B) (l : list A) :
  (forall x, In x l -> exists y, result_of (f x) = Return y) ->
  exists ys,
    result_of (tmap f l) = Return ys
    /\ Forall2 (fun x y => result_of (f x) = Return y) l ys.
Proof.
  induction l as [|x l IH]; intros H; simpl.
  - exists []. split; [reflexivity | constructor].
  - destruct (H x) as [y Hy]; [now left|].
    destruct IH as (ys & Hys & F); [intros z Hz; apply H; now right|].
    exists (y :: ys). split; [|now constructor].
    rewrite tbind_run, Hy, tbind_run, Hys. reflexivity.
Qed.

Lemma tmap_library_calls {A B} (f : A -> T B) (l : list A) :
  (forall x, In x l -> library_calls (effects_of (f x)) = []) ->
  library_calls (effects_of (tmap f l)) = [].
Proof.
  induction l as [|x l IH]; intros H; simpl; [reflexivity|].
  rewrite tbind_run.
  destruct (result_of (f x)) as [y|e]; cbn [effects_of fst];
    [|apply H; now left].
  rewrite library_calls_app, (H x) by now left. simpl.
  rewrite tbind_run.
  destruct (result_of (tmap f l)) as [ys|e]; cbn [effects_of fst].
  - rewrite library_calls_app, IH; [reflexivity|].
    intros z Hz. apply H. now right.
  - apply IH. intros z Hz. apply H. now right.
Qed.

(** ** Prescriptions: [_get_prescriptions] *)

(** X8. Without a client, or with a client that has no patient id (absent or
    empty), [_get_prescriptions] asks the server nothing: it logs one
    warning and returns the empty list. *)
Theorem get_prescriptions_without_patient (smart : option Smart.t) :
  smart = None
  \/ (exists sm, smart = Some sm
                 /\ (Smart.patient_id sm = None \/ Smart.patient_id sm = Some "")) ->
  _get_prescriptions smart = ([no_patient_warning], Return []).
Proof.
  intros [->|(sm & -> & H)]; [reflexivity|].
  unfold _get_prescriptions.
  now rewrite (proj2 (truthy_str_false _) H).
Qed.

(** X9. With a patient id, [_get_prescriptions] makes one search, for that
    patient; it returns what the search returned, and the empty list when
    the search raises: the exception is logged and does not leave the
    helper. *)
Theorem get_prescriptions_search (sm : Smart.t) (pid : string) :
  Smart.patient_id sm = Some pid ->
  pid <> "" ->
  library_calls (effects_of (_get_prescriptions (Some sm))) = [PerformSearch pid]
  /\ result_of (_get_prescriptions (Some sm)) =
       Return (match Smart.perform_search sm pid with
               | Return resources => resources
               | Raise _ => []
               end)
  /\ forall e, Smart.perform_search sm pid = Raise e ->
       In (LogException "Failed to get prescriptions" e)
          (base_events (effects_of (_get_prescriptions (Some sm)))).
Proof.
  intros Hp Hn. unfold _get_prescriptions. rewrite Hp.
  cbn [truthy_str fmt_opt]. apply String.eqb_neq in Hn. rewrite Hn.
  cbn [negb]. unfold tcall, tlog, tlog_exception, ttry, tbind, tret.
  destruct (Smart.perform_search sm pid) as [rs|e]; simpl.
  - repeat split. intros e H. discriminate H.
  - repeat split. intros e' H. inversion H. auto.
Qed.


Lemma get_prescriptions_returns (smart : option Smart.t) :
  exists rs, result_of (_get_prescriptions smart) = Return rs.
Proof.
  destruct smart as [sm|]; [|eexists; reflexivity].
  unfold _get_prescriptions.
  destruct (truthy_str (Smart.patient_id sm)); cbn [negb];
    [|eexists; reflexivity].
  unfold tcall, tlog, tlog_exception, ttry, tbind, tret.
  destruct (Smart.perform_search sm _); eexists; reflexivity.
Qed.

Lemma get_prescriptions_library_calls (smart : option Smart.t) :
  forall c, In c (library_calls (effects_of (_get_prescriptions smart))) ->
            exists pid, c = PerformSearch pid.
Proof.
  destruct smart as [sm|]; [|intros c []].
  unfold _get_prescriptions.
  destruct (truthy_str (Smart.patient_id sm)); cbn [negb]; [|intros c []].
  unfold tcall, tlog, tlog_exception, ttry, tbind, tret.
  destruct (Smart.perform_search sm _); simpl; intros c [<-|[]]; eauto.
Qed.

(** ** The home page: [index] *)

(** A prescription that is there always gets a name, and not an empty one. *)
Lemma get_med_name_some_returns (p : MedicationRequest.t)
    (smart : option FHIRClient.t) :
  exists s, outcome_of (_get_med_name (Some p) smart) = Return s /\ s <> "".
Proof.
  destruct (get_med_name_cases p smart) as (s & Hs & [(mc & _ & ->)|(_ & ->)]);
    eexists; split; try exact Hs.
  - apply med_name_nonempty.
  - discriminate.
Qed.

(** X10. When every read of the patient gives the same patient, the name on
    the page is the library's rendering of the first of its names, and
    ["Unknown Patient"] when it has none; [prepare()] is called only when
    the list of names is absent, and the name does not depend on how that
    call ends. *)
Theorem patient_name_of_stable_patient (sm : Smart.t) (pt : Patient.t) :
  (forall n, Smart.patient sm n = Return (Some pt)) ->
  result_of (patient_name sm) =
    match Patient.name pt with
    | Some (n0 :: _) => Smart.human_name sm n0
    | _ => Return "Unknown Patient"
    end
  /\ library_calls (effects_of (patient_name sm)) =
       match Patient.name pt with
       | None => [Prepare]
       | Some _ => []
       end.
Proof.
  intros H. unfold patient_name, patient_name_attr, tcall.
  rewrite !H. unfold ttry, tbind, tret, tlog, tlog_exception. simpl.
  destruct (Patient.name pt) as [[|n0 rest]|]; simpl.
  - split; reflexivity.
  - destruct (Smart.human_name sm n0); split; reflexivity.
  - destruct (Smart.prepare sm); simpl; split; reflexivity.
Qed.

Lemma lifted_names_resolved (c : option FHIRClient.t)
    (rs : list MedicationRequest.t) (names : list string) :
  Forall2 (fun p y => result_of (tlift (_get_med_name (Some p) c)) = Return y)
    rs names ->
  Forall2 (fun p n => outcome_of (_get_med_name (Some p) c) = Return n /\ n <> "")
    rs names.
Proof.
  induction 1 as [|p n rs names Hp F IH]; [constructor|].
  constructor; [|exact IH].
  destruct (get_med_name_some_returns p c) as (s & Hs & Ns).
  unfold tlift, result_of in Hp. cbn [snd] in Hp. unfold outcome_of in *.
  rewrite Hs in Hp. inversion Hp; subst. split; [exact Hs | exact Ns].
Qed.

(** How the prescriptions part of the page comes about. *)
Lemma prescriptions_section_run (sm : Smart.t) :
  exists rs names,
    result_of (_get_prescriptions (Some sm)) = Return rs
    /\ Forall2 (fun p n =>
                  outcome_of (_get_med_name (Some p) (Some (Smart.client sm)))
                    = Return n
                  /\ n <> "") rs names
    /\ result_of (prescriptions_section sm) =
         Return (match names with
                 | [] => no_prescriptions_html
                 | _ :: _ => prescriptions_html names
                 end).
Proof.
  destruct (get_prescriptions_returns (Some sm)) as [rs Hrs].
  pose (f := fun p => tlift (_get_med_name (Some p) (Some (Smart.client sm)))).
  destruct (tmap_returns f rs) as (names & Hn & F).
  { intros p _. destruct (get_med_name_some_returns p (Some (Smart.client sm)))
      as (s & Hs & _). exists s. exact Hs. }
  exists rs, names. split; [exact Hrs|]. split.
  - now apply lifted_names_resolved.
  - unfold prescriptions_section. rewrite tbind_run, Hrs.
    destruct rs as [|p rs]; cbn [result_of snd].
    + inversion F. reflexivity.
    + fold f. rewrite tbind_run, Hn.
      inversion F; subst. reflexivity.
Qed.

(** X11. The prescriptions part of the page never fails.  It is the
    none-found message when [_get_prescriptions] gives no prescription;
    otherwise it is the list with one item for each prescription, in the
    order of the search, each item the non-empty name [_get_med_name] gives
    it.  The could-not-extract message is never shown. *)
Theorem prescriptions_section_lists_names (sm : Smart.t) :
  exists rs names,
    result_of (_get_prescriptions (Some sm)) = Return rs
    /\ length names = length rs
    /\ Forall2 (fun p n =>
                  outcome_of (_get_med_name (Some p) (Some (Smart.client sm)))
                    = Return n
                  /\ n <> "") rs names
    /\ result_of (prescriptions_section sm) =
         Return (match rs with
                 | [] => no_prescriptions_html
                 | _ :: _ => prescriptions_html names
                 end).
Proof.
  destruct (prescriptions_section_run sm) as (rs & names & Hrs & F & Hs).
  exists rs, names. split; [exact Hrs|]. split.
  - symmetry. apply (Forall2_length F).
  - split; [exact F|]. rewrite Hs.
    destruct F; reflexivity.
Qed.

Lemma prescriptions_section_library_calls (sm : Smart.t) :
  forall c, In c (library_calls (effects_of (prescriptions_section sm))) ->
            exists pid, c = PerformSearch pid.
Proof.
  unfold prescriptions_section. rewrite tbind_run.
  destruct (get_prescriptions_returns (Some sm)) as [rs Hrs]. rewrite Hrs.
  cbn [effects_of fst]. intros c. rewrite library_calls_app, in_app_iff.
  intros [H|H]; [now apply (get_prescriptions_library_calls (Some sm))|].
  exfalso. revert H.
  assert (E : library_calls
                (effects_of
                   (tmap (fun p => tlift (_get_med_name (Some p)
                                            (Some (Smart.client sm)))) rs)) = []).
  { apply tmap_library_calls. intros p _. apply library_calls_lift. }
  destruct rs as [|p rs]; [intros []|].
  rewrite tbind_run.
  destruct (result_of (tmap _ (p :: rs))) as [[|n ns]|e]; cbn [effects_of fst];
    rewrite ?library_calls_app, E; intros [].
Qed.

(** What the handler of [index] makes of an exception. *)
Lemma index_run (w : World) (session : dict) (m : T string) :
  index w session = ttry m (fun e =>
                              tlog_exception "Error rendering index page" e ~;;
                              tret (application_error_html e)) ->
  exists body, result_of (index w session) = Return body
               /\ (result_of m = Return body
                   \/ exists e, result_of m = Raise e
                                /\ body = application_error_html e).
Proof.
  intros ->. rewrite ttry_run.
  destruct (result_of m) as [b|e]; [exists b; auto|].
  exists (application_error_html e). split; [reflexivity|]. right. eauto.
Qed.

(** X12. The home page never fails: [index] always returns a page, and the
    page either starts with the greeting or is the application-error page,
    made from the text of an exception and the link to [/reset]. *)
Theorem index_always_renders (w : World) (session : dict) :
  exists body,
    result_of (index w session) = Return body
    /\ ((exists rest, body = ("<h1>Hello</h1>" ++ rest)%string)
        \/ exists e, body = application_error_html e).
Proof.
  destruct (index_run w session _ eq_refl) as (body & Hb & K).
  exists body. split; [exact Hb|].
  destruct K as [H|(e & _ & ->)]; [left | right; eauto].
  rewrite tbind_run in H.
  destruct (result_of (observe (_get_smart w) session)) as [[sm|]|e];
    cbn [result_of snd] in H; [| |discriminate H].
  - rewrite tbind_run in H.
    destruct (result_of (index_for sm)) as [rest|e]; cbn [snd] in H;
      [|discriminate H].
    unfold result_of, tret in H. cbn [snd] in H. injection H as <-.
    exists rest. reflexivity.
  - unfold result_of, tret in H. cbn [snd] in H. injection H as <-.
    eexists. reflexivity.
Qed.

(** X13. When the client cannot be made, the home page is the
    application-error page with the text of the constructor's exception; the
    exception is logged and nothing else is asked of the library. *)
Theorem index_constructor_failure (w : World) (session : dict) (e : exn) :
  result_of (observe (_get_smart w) session) = Raise e ->
  result_of (index w session) = Return (application_error_html e)
  /\ In (LogException "Error rendering index page" e)
        (base_events (effects_of (index w session)))
  /\ library_calls (effects_of (index w session))
     = library_calls (effects_of (observe (_get_smart w) session)).
Proof.
  intros H. unfold index. rewrite ttry_run, tbind_run, H.
  cbn [result_of effects_of fst snd].
  unfold tlog_exception, tbind, tret. cbn [fst snd].
  rewrite base_events_app, library_calls_app, in_app_iff. simpl.
  rewrite app_nil_r. auto.
Qed.

(** X14. For a visitor whose client is not ready, or whose first read of
    the patient property gives [None], [index] goes to the branch of the
    authorization link: the page is the greeting with the link to authorize
    (or the note that there is none) and the link to [/reset], or the
    application-error page when reading the authorization URL raises.  On
    that path no prescriptions are searched, [prepare()] is not called and
    no medication is read. *)
Theorem index_unready_shows_authorize_page (w : World) (session : dict)
    (sm : Smart.t) :
  result_of (observe (_get_smart w) session) = Return (Some sm) ->
  Smart.ready sm = false \/ Smart.patient sm 0 = Return None ->
  result_of (index w session) =
    Return (match Smart.authorize_url sm with
            | Return auth_url =>
                ("<h1>Hello</h1>"
                   ++ (match as_truthy auth_url with
                       | Some u => authorize_html u
                       | None => no_authorize_url_html
                       end)
                   ++ reset_link_small_html)%string
            | Raise e => application_error_html e
            end)
  /\ searches (effects_of (index w session)) = []
  /\ ~ In Prepare (effects_of (index w session))
  /\ reads (base_events (effects_of (index w session))) = [].
Proof.
  intros H U.
  assert (E : index_for sm =
              (auth_url <~ tcall [] (Smart.authorize_url sm) ;;
               tret ((match as_truthy auth_url with
                      | Some u => authorize_html u
                      | None => no_authorize_url_html
                      end) ++ reset_link_small_html)%string)).
  { unfold index_for. destruct (Smart.ready sm).
    - destruct U as [U|U]; [discriminate U|]. rewrite U.
      unfold tcall, tbind, tret. destruct (Smart.authorize_url sm); reflexivity.
    - unfold tcall, tbind, tret. destruct (Smart.authorize_url sm); reflexivity. }
  assert (G : exists t, observe (_get_smart w) session = (t, Return (Some sm))
                        /\ searches t = [] /\ ~ In Prepare t
                        /\ reads (base_events t) = []).
  { destruct (get_smart_run w session) as (saved & c & o & G).
    unfold observe in *. rewrite G in *. simpl in H.
    exists [c]. rewrite <- H. split; [reflexivity|].
    destruct (truthy (dict_get "state" session)) eqn:S.
    - rewrite (get_smart_with_state w session S) in G. inversion G.
      repeat split. intros [K|[]]. discriminate K.
    - rewrite (get_smart_without_state w session S) in G. inversion G.
      repeat split. intros [K|[]]. discriminate K. }
  destruct G as (t & G & St & Pt & Rt).
  unfold index. rewrite G. rewrite ttry_run, tbind_run.
  cbn [result_of effects_of fst snd]. rewrite E.
  unfold tcall, tbind, tret, tlog_exception.
  destruct (Smart.authorize_url sm) as [u|e]; simpl;
    rewrite ?app_nil_r;
    rewrite ?searches_app, ?base_events_app, ?reads_app, ?St, ?Rt; simpl;
    rewrite ?app_nil_r; repeat split; auto.
  intros K. apply in_app_iff in K. destruct K as [K|[K|[]]];
    [now apply Pt | discriminate K].
Qed.

(** ** The callback route with its client *)

Lemma callback_returns (smart : option FHIRClient.t) (request : Request) :
  exists r, outcome_of (callback smart request) = Return r.
Proof.
  destruct smart as [sm|]; [|eexists; reflexivity].
  unfold callback.
  destruct (truthy_str (args_get "code" (args request))); cbn [negb].
  - run. destruct (FHIRClient.handle_callback sm (url request));
      eexists; reflexivity.
  - eexists; reflexivity.
Qed.

(** X15. The callback route makes its client outside the handler's [try]:
    it raises exactly when the constructor raises, with the constructor's
    exception, and then nothing is handed to the callback processor.  In
    every other case it returns a response. *)
Theorem callback_route_raises_with_constructor (w : World) (session : dict)
    (request : Request) (e : exn) :
  (result_of (callback_route w session request) = Raise e
   <-> result_of (observe (_get_smart w) session) = Raise e)
  /\ (result_of (observe (_get_smart w) session) = Raise e ->
      handoffs (base_events (effects_of (callback_route w session request))) = []).
Proof.
  unfold callback_route. rewrite tbind_run.
  destruct (get_smart_run w session) as (saved & c & o & G).
  assert (B : base_events (effects_of (observe (_get_smart w) session)) = []).
  { unfold observe. rewrite G. destruct c; try reflexivity.
    exfalso. destruct (truthy (dict_get "state" session)) eqn:S.
    - rewrite (get_smart_with_state w session S) in G. inversion G.
    - rewrite (get_smart_without_state w session S) in G. inversion G. }
  destruct (result_of (observe (_get_smart w) session)) as [smart|e'] eqn:H.
  - destruct (callback_returns (option_map Smart.client smart) request) as [r Hr].
    unfold tlift, result_of, outcome_of in *. cbn [snd]. rewrite Hr.
    split; [split; intros K; discriminate K | intros K; discriminate K].
  - cbn [result_of snd effects_of fst]. rewrite B.
    split; [split; intros K; injection K as ->; reflexivity | reflexivity].
Qed.

(** ** Saving twice, and the page of an authorized visitor *)

Lemma dict_set_set (k : string) (v1 v2 : pyval) (d : dict) :
  dict_set k v2 (dict_set k v1 d) = dict_set k v2 d.
Proof.
  induction d as [|[k' v'] d IH]; simpl.
  - now rewrite String.eqb_refl.
  - destruct (k' =? k) eqn:E; simpl.
    + now rewrite String.eqb_refl.
    + now rewrite E, IH.
Qed.

(** X16. [_save_state] stores the state under the key [state] and touches
    nothing else: the state is what the session gives back, every other key
    keeps its value, and a later save overwrites an earlier one, so that the
    session after two saves is the session after the second alone. *)
Theorem save_state_overwrites (state1 state2 : pyval) (session : dict) :
  dict_get "state" (session_after (_save_state state2) session) = state2
  /\ (forall k, k <> "state" ->
        dict_get k (session_after (_save_state state2) session)
          = dict_get k session)
  /\ session_after (_save_state state2)
       (session_after (_save_state state1) session)
     = session_after (_save_state state2) session.
Proof.
  unfold session_after, _save_state. cbn [fst]. split; [|split].
  - apply dict_get_set_same.
  - intros k N. now apply dict_get_set_other.
  - apply dict_set_set.
Qed.

(** X17. Once the client is ready, the first read of the patient gave one
    and the name for the page is found, nothing can stop the page any more:
    [index] returns the greeting, the line with the name and the patient id,
    the prescriptions part (the none-found message or the list of names,
    none of them empty) and the logout link. *)
Theorem index_authorized_page (w : World) (session : dict) (sm : Smart.t)
    (pt : Patient.t) (name : string) :
  result_of (observe (_get_smart w) session) = Return (Some sm) ->
  Smart.ready sm = true ->
  Smart.patient sm 0 = Return (Some pt) ->
  result_of (patient_name sm) = Return name ->
  exists names,
    Forall (fun n => n <> "") names
    /\ result_of (index w session) =
         Return ("<h1>Hello</h1>"
                   ++ "<p>Authorized for <em>" ++ name ++ "</em> (ID: "
                   ++ fmt_opt (Smart.patient_id sm) ++ ").</p>"
                   ++ (match names with
                       | [] => no_prescriptions_html
                       | _ :: _ => prescriptions_html names
                       end)
                   ++ logout_link_html)%string.
Proof.
  intros H Hr Hp Hn.
  destruct (prescriptions_section_run sm) as (rs & names & _ & F & Hs).
  exists names. split.
  - clear Hs. induction F as [|p n rs names [_ N] F IH]; constructor; auto.
  - unfold index. rewrite ttry_run, tbind_run, H.
    cbn [result_of snd]. rewrite tbind_run.
    unfold index_for. rewrite Hr, Hp. unfold tcall at 1.
    rewrite tbind_run. cbn [result_of snd].
    rewrite tbind_run, Hn.
    cbn [result_of snd]. rewrite tbind_run, Hs. reflexivity.
Qed.

(** * Concrete runs of the routes *)

Lemma get_smart_uses_saved_state_witness :
  observe (_get_smart demo_world)
    (session_after (_save_state saved_state) fresh_session)
    = ([NewClientFromState saved_state],
       made (snd (client_from_state demo_world saved_state))).
Proof.
  apply (get_smart_uses_saved_state demo_world saved_state fresh_session).
  reflexivity.
Defined.

Lemma logout_without_state_witness :
  logout demo_world fresh_session
    = (fresh_session, ([], Return (Redirect "/")))
  /\ dict_get "state" (session_after (logout demo_world) fresh_session) = PyNone.
Proof.
  apply (logout_without_state demo_world fresh_session). reflexivity.
Defined.

Lemma logout_clears_state_witness :
  Redirect "/" = Redirect "/"
  /\ dict_contains "state" (session_after (logout demo_world) logged_in_session)
     = false
  /\ forall k, k <> "state" ->
       dict_get k (session_after (logout demo_world) logged_in_session)
         = dict_get k logged_in_session
       /\ dict_contains k (session_after (logout demo_world) logged_in_session)
          = dict_contains k logged_in_session.
Proof.
  apply (logout_clears_state demo_world logged_in_session (Redirect "/")).
  reflexivity.
Defined.

(** The state the library saved while resetting the patient is gone too. *)
Example logout_demo :
  logout demo_world logged_in_session
    = (fresh_session,
       ([NewClientFromState saved_state; ResetPatient], Return (Redirect "/"))).
Proof. reflexivity. Qed.

Lemma logout_failure_keeps_state_witness :
  dict_contains "state" logged_in_session = true
  /\ dict_contains "state" (session_after (logout stuck_world) logged_in_session)
     = true
  /\ forall k, k <> "state" ->
       dict_get k (session_after (logout stuck_world) logged_in_session)
         = dict_get k logged_in_session.
Proof.
  apply (logout_failure_keeps_state stuck_world logged_in_session network_error).
  reflexivity.
Defined.

Lemma get_prescriptions_without_patient_witness :
  _get_prescriptions (Some unready_client) = ([no_patient_warning], Return []).
Proof.
  apply (get_prescriptions_without_patient (Some unready_client)).
  right. exists unready_client. split; [reflexivity | left; reflexivity].
Defined.

Lemma get_prescriptions_search_witness :
  library_calls (effects_of (_get_prescriptions (Some nameless_client)))
    = [PerformSearch "p1"]
  /\ result_of (_get_prescriptions (Some nameless_client)) =
       Return (match Smart.perform_search nameless_client "p1" with
               | Return resources => resources
               | Raise _ => []
               end)
  /\ forall e, Smart.perform_search nameless_client "p1" = Raise e ->
       In (LogException "Failed to get prescriptions" e)
          (base_events (effects_of (_get_prescriptions (Some nameless_client)))).
Proof.
  apply (get_prescriptions_search nameless_client "p1");
    [reflexivity | discriminate].
Defined.

Lemma patient_name_of_stable_patient_witness :
  result_of (patient_name nameless_client) = Return "Unknown Patient"
  /\ library_calls (effects_of (patient_name nameless_client)) = [Prepare].
Proof.
  apply (patient_name_of_stable_patient nameless_client patient_nameless).
  intros n. reflexivity.
Defined.

Lemma index_constructor_failure_witness :
  result_of (index broken_world logged_in_session)
    = Return (application_error_html network_error)
  /\ In (LogException "Error rendering index page" network_error)
        (base_events (effects_of (index broken_world logged_in_session)))
  /\ library_calls (effects_of (index broken_world logged_in_session))
     = library_calls
         (effects_of (observe (_get_smart broken_world) logged_in_session)).
Proof.
  apply (index_constructor_failure broken_world logged_in_session network_error).
  reflexivity.
Defined.

Lemma index_unready_shows_authorize_page_witness :
  result_of (index demo_world fresh_session) =
    Return (match Smart.authorize_url unready_client with
            | Return auth_url =>
                ("<h1>Hello</h1>"
                   ++ (match as_truthy auth_url with
                       | Some u => authorize_html u
                       | None => no_authorize_url_html
                       end)
                   ++ reset_link_small_html)%string
            | Raise e => application_error_html e
            end)
  /\ searches (effects_of (index demo_world fresh_session)) = []
  /\ ~ In Prepare (effects_of (index demo_world fresh_session))
  /\ reads (base_events (effects_of (index demo_world fresh_session))) = [].
Proof.
  apply (index_unready_shows_authorize_page demo_world fresh_session
           unready_client); [reflexivity | left; reflexivity].
Defined.

Lemma index_authorized_page_witness :
  exists names,
    Forall (fun n => n <> "") names
    /\ result_of (index demo_world logged_in_session) =
         Return ("<h1>Hello</h1>"
                   ++ "<p>Authorized for <em>" ++ "John Smith" ++ "</em> (ID: "
                   ++ fmt_opt (Smart.patient_id ready_client) ++ ").</p>"
                   ++ (match names with
                       | [] => no_prescriptions_html
                       | _ :: _ => prescriptions_html names
                       end)
                   ++ logout_link_html)%string.
Proof.
  apply (index_authorized_page demo_world logged_in_session ready_client
           patient_smith "John Smith"); reflexivity.
Defined.

(** The page of the authorized visitor of the sample world: one inline
    prescription, one resolved through its reference. *)
Example index_demo_names :
  result_of (prescriptions_section ready_client)
    = Return (prescriptions_html ["Aspirin 81mg"; "Aspirin 81 MG Oral Tablet"]).
Proof. reflexivity. Qed.

(** The same failure of the constructor: a page on [/], an exception on
    [/fhir-app/]. *)
Example constructor_failure_on_both_routes :
  result_of (index broken_world logged_in_session)
    = Return (application_error_html network_error)
  /\ result_of (callback_route broken_world logged_in_session callback_request)
     = Raise network_error.
Proof. split; reflexivity. Qed.
